(** * UI bindings of the canvas front-end: handlers and the enqueue listener

    A shallow embedding of four TypeScript files of the web front-end:

    - [SettingsLogLevelSelect]   (the log-level combobox),
    - [CanvasEntityOpacity]      (the opacity number input and slider),
    - [CanvasAddEntityButtons]   (the five "add entity" buttons),
    - [addEnqueueRequestedNodes] (the listener that enqueues a batch).

    Event handlers are computations in a small state-and-exception monad
    over a [World]: the Redux store, the React local state of the opacity
    component, the keyboard's shift flag and the trace of what the handler
    has sent to the store.  JavaScript numbers are IEEE-754 binary64
    values, that is Rocq's primitive [float]. *)

From Stdlib Require Import List String Bool ZArith Lia Floats.
Import ListNotations.

Open Scope string_scope.
Open Scope list_scope.

(** ** JavaScript numbers *)

Module JS.

Definition number := float.

(** [Number(x)] on a value that already is a number. *)
Definition Number (x : number) : number := x.

(** Global [isNaN] on a number. *)
Definition isNaN (x : number) : bool := PrimFloat.is_nan x.

(** [a >= b]. *)
Definition geb (a b : number) : bool := PrimFloat.leb b a.

(** [a === b] on numbers. *)
Definition strict_eq (a b : number) : bool := PrimFloat.eqb a b.

(** [Array.prototype.slice(start, end)] for indices within bounds. *)
Definition slice {A : Type} (l : list A) (start stop : nat) : list A :=
  firstn (stop - start) (skipn start l).

End JS.

Export JS.

(** ** lodash's [clamp]

    [clamp(number, lower, upper)] replaces a NaN bound by 0 and hands over
    to [baseClamp], which leaves a NaN [number] alone. *)

Module Lodash.

Definition baseClamp (n lower upper : number) : number :=
  if strict_eq n n then
    let n := if PrimFloat.leb n upper then n else upper in
    let n := if geb n lower then n else lower in
    n
  else n.

Definition clamp (n lower upper : number) : number :=
  let upper := if strict_eq upper upper then upper else 0%float in
  let lower := if strict_eq lower lower then lower else 0%float in
  baseClamp n lower upper.

End Lodash.

(** ** Binary64 values the handlers compare against

    [Prim2SF] maps a primitive float to its specification in
    [SpecFloat]; these are the images of the literals 0, 1 and 100. *)

Module Binary64.

Definition zero : spec_float := S754_zero false.
Definition one : spec_float := S754_finite false 4503599627370496 (-52).
Definition hundred : spec_float := S754_finite false 7036874417766400 (-46).

(** A value that is not NaN, with its sign bit. *)
Definition has_sign (s : bool) (r : spec_float) : Prop :=
  match r with
  | S754_zero s' | S754_infinity s' | S754_finite s' _ _ => s' = s
  | S754_nan => False
  end.

End Binary64.

(** [0 <= x && x <= 1]. *)
Definition in_unit_interval (x : number) : bool :=
  PrimFloat.leb 0%float x && PrimFloat.leb x 1%float.

(** ** Payloads that do not depend on the node editor's types *)

Record CanvasEntityIdentifier : Type := {
  id : string;
  type : string
}.

Module EnqueueRequested.
(** Payload of the [enqueueRequested] action. *)
Record payload : Type := { tabName : string; prepend : bool }.
End EnqueueRequested.

Record ComboboxOption : Type := { label : string; value : string }.

(** [v?.value] for the combobox's [v], which is an option or [null]. *)
Definition optional_value (v : option ComboboxOption) : option string :=
  match v with
  | Some o => Some (value o)
  | None => None
  end.

(** Methods of the handle that dispatching an RTK Query [initiate] thunk
    returns. *)
Inductive RequestMethod : Type :=
| reset
| abort
| unwrap
| unsubscribe.

(** Outcome of running a handler: it returns, or a JavaScript exception
    escapes. *)
Inductive Completion (A : Type) : Type :=
| Normal (a : A)
| Throw (error : string).

Arguments Normal {A} a.
Arguments Throw {A} error.

(** Modelled from the spec: [snapToNearest] of
    [features/controlLayers/konva/util] is not among the sources.  The
    slider is said to snap to one of its candidates; this is a snapping
    function of that kind, the candidate nearest to [value] among those
    within [threshold] of it, and [value] itself when there is none.  The
    handlers below take [snapToNearest] as a parameter; [nearestWithin]
    only shows that what is assumed of it can be met. *)
Definition nearestWithin (value : number) (candidateValues : list number)
  (threshold : number) : number :=
  fst
    (fold_left
       (fun (acc : number * number) (candidate : number) =>
          let diff := PrimFloat.abs (value - candidate)%float in
          if PrimFloat.ltb diff (snd acc) && PrimFloat.leb diff threshold
          then (candidate, diff)
          else acc)
       candidateValues
       (value, 0x1.fffffffffffffp+1023%float)).

Section Frontend.

(** The node editor's slice, the graph and workflow built from it, and
    the adapters the hooks provide, are opaque to these files. *)
Variables NodesState Graph Workflow ControlAdapter IPAdapter : Type.

Variable buildNodesGraph : NodesState -> Graph.
Variable buildWorkflow : NodesState -> Workflow.

(** [isLogLevel] of [app/logging/logger], a type guard applied here to
    [v?.value], a string or [undefined]. *)
Variable isLogLevel : option string -> bool.

(** [snapToNearest(value, candidateValues, threshold)] of
    [features/controlLayers/konva/util]. *)
Variable snapToNearest : number -> list number -> number -> number.

(** *** The queue API's argument *)

Record Batch : Type := {
  graph : Graph;
  workflow : Workflow;
  runs : number
}.

Record BatchConfig : Type := {
  batch : Batch;
  prepend : bool
}.

(** *** Store actions *)

(** The [overrides] of [controlLayerAdded]'s payload, as far as the
    button fills them in. *)
Record ControlLayerOverrides : Type := {
  controlAdapter : ControlAdapter
}.

Inductive Action : Type :=
| logLevelChanged (level : string)
| entityOpacityChanged (entityIdentifier : CanvasEntityIdentifier) (opacity : number)
| inpaintMaskAdded
| rgAdded
| rasterLayerAdded (isSelected : bool)
| controlLayerAdded (isSelected : bool) (overrides : ControlLayerOverrides)
| ipaAdded (ipAdapter : IPAdapter)
| enqueueRequested (p : EnqueueRequested.payload)
| enqueueBatch_initiate (arg : BatchConfig) (fixedCacheKey : string)
| otherAction (name : string).

(** *** The store's state, as far as these files read it *)

Record GenerationState : Type := { iterations : number }.

Record CanvasV2State : Type := {
  selectedEntityIdentifier : option CanvasEntityIdentifier
}.

Record SystemState : Type := { logLevel : string; logIsEnabled : bool }.

Record RootState : Type := {
  nodes : NodesState;
  generation : GenerationState;
  canvasV2 : CanvasV2State;
  system : SystemState
}.

(** The store's reducer belongs to the store, not to these files. *)
Variable rootReducer : RootState -> Action -> RootState.

(** *** The world a handler runs in *)

Inductive Event : Type :=
| Dispatched (a : Action)
| RequestCall (request : nat) (method : RequestMethod).

Record World : Type := {
  store : RootState;          (* the Redux store *)
  localOpacity : number;      (* useState of CanvasEntityOpacity *)
  shift : bool;               (* the $shift atom *)
  trace : list Event          (* what has been sent to the store, oldest first *)
}.

Definition M (A : Type) : Type := World -> Completion A * World.

Definition ret {A : Type} (a : A) : M A := fun w => (Normal a, w).

Definition bind {A B : Type} (m : M A) (k : A -> M B) : M B :=
  fun w =>
    match m w with
    | (Normal a, w') => k a w'
    | (Throw e, w') => (Throw e, w')
    end.

Definition throw {A : Type} (e : string) : M A := fun w => (Throw e, w).

Definition getState : M RootState := fun w => (Normal (store w), w).

(** [dispatch(a)] runs the reducer and returns a handle on the request,
    the position of the dispatch in the trace. *)
Definition dispatch (a : Action) : M nat :=
  fun w =>
    (Normal (List.length (trace w)),
     {| store := rootReducer (store w) a;
        localOpacity := localOpacity w;
        shift := shift w;
        trace := trace w ++ [Dispatched a] |}).

(** A method call on a request handle. *)
Definition call (request : nat) (method : RequestMethod) : M unit :=
  fun w =>
    (Normal tt,
     {| store := store w;
        localOpacity := localOpacity w;
        shift := shift w;
        trace := trace w ++ [RequestCall request method] |}).

Definition setLocalOpacity (v : number) : M unit :=
  fun w =>
    (Normal tt,
     {| store := store w;
        localOpacity := v;
        shift := shift w;
        trace := trace w |}).

(** [$shift.get()]. *)
Definition shift_get : M bool := fun w => (Normal (shift w), w).

Notation "x <- m ;; k" := (bind m (fun x => k))
  (at level 61, m at next level, right associativity).
Notation "m ;;; k" := (bind m (fun _ => k))
  (at level 61, right associativity).

(** Running a handler: the world it leaves, and how it completes. *)
Definition exec {A : Type} (m : M A) (w : World) : World := snd (m w).
Definition completion {A : Type} (m : M A) (w : World) : Completion A := fst (m w).

(** The store after a list of events has reached it. *)
Definition apply_event (s : RootState) (e : Event) : RootState :=
  match e with
  | Dispatched a => rootReducer s a
  | RequestCall _ _ => s
  end.

Definition apply_events (s : RootState) (es : list Event) : RootState :=
  fold_left apply_event es s.

(** ** SettingsLogLevelSelect *)

(** [onChange] of the log-level combobox.  Reading [v.value] on a
    [null] option is a TypeError. *)
Definition onChange (v : option ComboboxOption) : M unit :=
  if negb (isLogLevel (optional_value v)) then
    ret tt
  else
    match v with
    | Some o => dispatch (logLevelChanged (value o)) ;;; ret tt
    | None => throw "TypeError: v is null"
    end.

(** ** CanvasEntityOpacity *)

Definition mapSliderValueToOpacity (value : number) : number :=
  (value / 100)%float.

Definition mapOpacityToSliderValue (opacity : number) : number :=
  (opacity * 100)%float.

Definition marks : list number :=
  [ mapOpacityToSliderValue 0;
    mapOpacityToSliderValue 0.25;
    mapOpacityToSliderValue 0.5;
    mapOpacityToSliderValue 0.75;
    mapOpacityToSliderValue 1 ]%float.

Definition sliderDefaultValue : number := mapOpacityToSliderValue 100%float.

Definition snapCandidates : list number :=
  slice marks 1 (List.length marks - 1).

(** The [min] and [max] props given to the slider. *)
Definition sliderMin : number := 0%float.
Definition sliderMax : number := 100%float.

(** [(opacity ?? 1) * 100], the initial and the re-synchronised local
    value. *)
Definition localOpacityOf (opacity : option number) : number :=
  ((match opacity with Some o => o | None => 1 end) * 100)%float.

(** The callbacks close over [selectedEntityIdentifier] and
    [localOpacity] as the last render saw them. *)
Section Callbacks.

Variable selected : option CanvasEntityIdentifier.
Variable local : number.

Definition onChangeSlider (opacity : number) : M unit :=
  match selected with
  | None => ret tt
  | Some entityIdentifier =>
      held <- shift_get ;;
      let snappedOpacity :=
        if negb held then snapToNearest opacity snapCandidates 2%float
        else opacity in
      let mappedOpacity := mapSliderValueToOpacity snappedOpacity in
      dispatch (entityOpacityChanged entityIdentifier mappedOpacity) ;;;
      ret tt
  end.

Definition onBlur : M unit :=
  match selected with
  | None => ret tt
  | Some entityIdentifier =>
      if isNaN (Number local) then
        setLocalOpacity 100%float
      else
        dispatch
          (entityOpacityChanged entityIdentifier
             (Lodash.clamp (local / 100)%float 0%float 1%float)) ;;;
        ret tt
  end.

Definition onChangeNumberInput (valueAsString : string) (valueAsNumber : number)
  : M unit :=
  setLocalOpacity valueAsNumber.

Definition onKeyDown (key : string) : M unit :=
  if String.eqb key "Enter" then onBlur else ret tt.

End Callbacks.

(** The [useEffect] that follows the store's opacity. *)
Definition syncLocalOpacity (opacity : option number) : M unit :=
  setLocalOpacity (localOpacityOf opacity).

(** ** CanvasAddEntityButtons *)

Section Buttons.

Variable defaultControlAdapter : ControlAdapter.
Variable defaultIPAdapter : IPAdapter.

Definition addInpaintMask : M unit :=
  dispatch inpaintMaskAdded ;;; ret tt.

Definition addRegionalGuidance : M unit :=
  dispatch rgAdded ;;; ret tt.

Definition addRasterLayer : M unit :=
  dispatch (rasterLayerAdded true) ;;; ret tt.

Definition addControlLayer : M unit :=
  dispatch
    (controlLayerAdded true {| controlAdapter := defaultControlAdapter |}) ;;;
  ret tt.

Definition addIPAdapter : M unit :=
  dispatch (ipaAdded defaultIPAdapter) ;;; ret tt.

(** The five buttons, top to bottom, and their [onClick]. *)
Inductive Button : Type :=
| InpaintMaskButton
| RegionalGuidanceButton
| RasterLayerButton
| ControlLayerButton
| IPAdapterButton.

Definition onClick (b : Button) : M unit :=
  match b with
  | InpaintMaskButton => addInpaintMask
  | RegionalGuidanceButton => addRegionalGuidance
  | RasterLayerButton => addRasterLayer
  | ControlLayerButton => addControlLayer
  | IPAdapterButton => addIPAdapter
  end.

End Buttons.

(** ** addEnqueueRequestedNodes *)

(** [enqueueRequested.match(action)], a type guard that gives access to
    the payload. *)
Definition enqueueRequested_match (action : Action)
  : option EnqueueRequested.payload :=
  match action with
  | enqueueRequested p => Some p
  | _ => None
  end.

Definition predicate (action : Action) : bool :=
  match enqueueRequested_match action with
  | Some p => String.eqb (EnqueueRequested.tabName p) "nodes"
  | None => false
  end.

(** The effect, on an action that the predicate has narrowed to
    [enqueueRequested]. *)
Definition effect (p : EnqueueRequested.payload) : M unit :=
  state <- getState ;;
  let graph := buildNodesGraph (nodes state) in
  let workflow := buildWorkflow (nodes state) in
  let batchConfig :=
    {| batch := {| graph := graph;
                   workflow := workflow;
                   runs := iterations (generation state) |};
       prepend := EnqueueRequested.prepend p |} in
  req <- dispatch (enqueueBatch_initiate batchConfig "enqueueBatch") ;;
  call req reset.

(** What the listener middleware does with the listener registered by
    [startAppListening] when an action passes through it. *)
Definition listener (action : Action) : M unit :=
  if predicate action then
    match enqueueRequested_match action with
    | Some p => effect p
    | None => ret tt
    end
  else ret tt.

(** ** Observing a handler *)

(** The events a handler added to the trace. *)
Definition emitted {A : Type} (m : M A) (w : World) : list Event :=
  skipn (List.length (trace w)) (trace (exec m w)).

(** The actions among them, and the method calls on request handles. *)
Definition dispatches (es : list Event) : list Action :=
  flat_map (fun e => match e with Dispatched a => [a] | RequestCall _ _ => [] end) es.

Definition calls (es : list Event) : list (nat * RequestMethod) :=
  flat_map (fun e => match e with Dispatched _ => [] | RequestCall r m => [(r, m)] end) es.

(** The opacities carried by the [entityOpacityChanged] actions among
    them. *)
Definition opacities (es : list Event) : list number :=
  flat_map
    (fun e =>
       match e with
       | Dispatched (entityOpacityChanged _ opacity) => [opacity]
       | _ => []
       end) es.

(** Everything the user or the store can do to the four files. *)
Inductive Stimulus : Type :=
| LogLevelChange (v : option ComboboxOption)
| SliderChange (selected : option CanvasEntityIdentifier) (local opacity : number)
| NumberInputBlur (selected : option CanvasEntityIdentifier) (local : number)
| NumberInputChange (valueAsString : string) (valueAsNumber : number)
| NumberInputKeyDown (selected : option CanvasEntityIdentifier) (local : number) (key : string)
| OpacitySeen (opacity : option number)
| Click (defaultControlAdapter : ControlAdapter) (defaultIPAdapter : IPAdapter) (b : Button)
| ActionSeen (action : Action).

Definition handle (s : Stimulus) : M unit :=
  match s with
  | LogLevelChange v => onChange v
  | SliderChange selected _ opacity => onChangeSlider selected opacity
  | NumberInputBlur selected local => onBlur selected local
  | NumberInputChange s n => onChangeNumberInput s n
  | NumberInputKeyDown selected local key => onKeyDown selected local key
  | OpacitySeen opacity => syncLocalOpacity opacity
  | Click a i b => onClick a i b
  | ActionSeen action => listener action
  end.

(** The traffic the four files are said to send: the typed actions of the
    log level, the opacity, the added entities, the batch request and the
    release of its handle. *)
Definition sanctioned (e : Event) : bool :=
  match e with
  | Dispatched (logLevelChanged _) => true
  | Dispatched (entityOpacityChanged _ _) => true
  | Dispatched inpaintMaskAdded => true
  | Dispatched rgAdded => true
  | Dispatched (rasterLayerAdded _) => true
  | Dispatched (controlLayerAdded _ _) => true
  | Dispatched (ipaAdded _) => true
  | Dispatched (enqueueBatch_initiate _ _) => true
  | Dispatched (enqueueRequested _) => false
  | Dispatched (otherAction _) => false
  | RequestCall _ reset => true
  | RequestCall _ _ => false
  end.

(** ** The parts of the store and who may change them *)

(** The parts of the store's state these files read or name. *)
Inductive StorePart : Type :=
| NodesPart
| GenerationPart
| CanvasV2Part
| LogLevelPart
| LogIsEnabledPart.

(** Two states agree on a part. *)
Definition same_part (p : StorePart) (s s' : RootState) : Prop :=
  match p with
  | NodesPart => nodes s = nodes s'
  | GenerationPart => generation s = generation s'
  | CanvasV2Part => canvasV2 s = canvasV2 s'
  | LogLevelPart => logLevel (system s) = logLevel (system s')
  | LogIsEnabledPart => logIsEnabled (system s) = logIsEnabled (system s')
  end.

(** Modelled from the spec: the slices that reduce these actions
    ([features/system/store/systemSlice],
    [features/controlLayers/store/canvasV2Slice]) and the queue API are
    not among the sources.  The spec places the log level, the entities
    with their opacity and the queue batches in the external store and
    service; accordingly [logLevelChanged] may change the log level, the
    entity actions the canvas slice, and the batch request none of the
    parts above (a batch lives in the queue service).  Nothing is said of
    the actions these files do not dispatch. *)
Definition may_change (a : Action) (p : StorePart) : bool :=
  match a, p with
  | logLevelChanged _, LogLevelPart => true
  | logLevelChanged _, _ => false
  | entityOpacityChanged _ _, CanvasV2Part => true
  | entityOpacityChanged _ _, _ => false
  | inpaintMaskAdded, CanvasV2Part => true
  | inpaintMaskAdded, _ => false
  | rgAdded, CanvasV2Part => true
  | rgAdded, _ => false
  | rasterLayerAdded _, CanvasV2Part => true
  | rasterLayerAdded _, _ => false
  | controlLayerAdded _ _, CanvasV2Part => true
  | controlLayerAdded _ _, _ => false
  | ipaAdded _, CanvasV2Part => true
  | ipaAdded _, _ => false
  | enqueueBatch_initiate _ _, _ => false
  | enqueueRequested _, _ => true
  | otherAction _, _ => true
  end.

(** The events that belong to a stimulus: the combobox sends
    [logLevelChanged], the opacity controls [entityOpacityChanged], each
    button the action of its entity, the listener its request and the
    reset of the handle; typing and the [useEffect] send nothing. *)
Definition own (s : Stimulus) (e : Event) : bool :=
  match s, e with
  | LogLevelChange _, Dispatched (logLevelChanged _) => true
  | SliderChange _ _ _, Dispatched (entityOpacityChanged _ _) => true
  | NumberInputBlur _ _, Dispatched (entityOpacityChanged _ _) => true
  | NumberInputKeyDown _ _ _, Dispatched (entityOpacityChanged _ _) => true
  | Click _ _ InpaintMaskButton, Dispatched inpaintMaskAdded => true
  | Click _ _ RegionalGuidanceButton, Dispatched rgAdded => true
  | Click _ _ RasterLayerButton, Dispatched (rasterLayerAdded _) => true
  | Click _ _ ControlLayerButton, Dispatched (controlLayerAdded _ _) => true
  | Click _ _ IPAdapterButton, Dispatched (ipaAdded _) => true
  | ActionSeen _, Dispatched (enqueueBatch_initiate _ _) => true
  | ActionSeen _, RequestCall _ reset => true
  | _, _ => false
  end.

(** The one part of the store a stimulus may reach: the log level for
    the combobox, the canvas slice for the opacity controls and the
    buttons, none for typing, the [useEffect] and the listener. *)
Definition reach (s : Stimulus) (p : StorePart) : bool :=
  match s, p with
  | LogLevelChange _, LogLevelPart => true
  | SliderChange _ _ _, CanvasV2Part => true
  | NumberInputBlur _ _, CanvasV2Part => true
  | NumberInputKeyDown _ _ _, CanvasV2Part => true
  | Click _ _ _, CanvasV2Part => true
  | _, _ => false
  end.

(** A handler keeps to the events [ok] allows when, from any world, the
    trace only grows by such events and the store it leaves is the store
    it found after the reducer has seen them. *)
Definition keeps_to (ok : Event -> bool) {A : Type} (m : M A) : Prop :=
  forall w, exists es,
    trace (exec m w) = trace w ++ es /\
    store (exec m w) = apply_events (store w) es /\
    forallb ok es = true.

(** ** More of SettingsLogLevelSelect *)

(** [zLogLevel.options] of [app/logging/logger], the levels the combobox
    offers. *)
Variable zLogLevel_options : list string.

(** [options]: one combobox option per level, labelled by the level. *)
Definition options : list ComboboxOption :=
  map (fun o => {| label := o; value := o |}) zLogLevel_options.

(** The memoised [value] the combobox shows for the store's [logLevel]:
    [options.find((o) => o.value === logLevel)], [None] for
    [undefined]. *)
Definition selectedOption (logLevel : string) : option ComboboxOption :=
  find (fun o => String.eqb (value o) logLevel) options.

(** ** Whole numbers

    The number [k] for a natural [k]; sums of ones are exact far beyond
    the slider's range. *)
Fixpoint wholeNumber (k : nat) : number :=
  match k with
  | O => 0%float
  | S k' => (wholeNumber k' + 1)%float
  end.

(** A handler keeps to the store's interface when, from any world, the
    trace only grows, the store it leaves is the store it found after the
    reducer has seen the events it emitted, and those events are among the
    sanctioned ones. *)
Definition through_store {A : Type} (m : M A) : Prop :=
  forall w, exists es,
    trace (exec m w) = trace w ++ es /\
    store (exec m w) = apply_events (store w) es /\
    forallb sanctioned es = true.

(** * Properties *)

(** ** Binary64 division by 100

    The quotient of a non-negative float that is at most 100 is at most 1
    after rounding to nearest: the rounded mantissa has at most 53 bits
    at an exponent of at most -53, or is exactly 2^52 at exponent -52. *)

Section Binary64Integers.

Local Open Scope Z_scope.

Lemma digits2_pos_size p : digits2_pos p = Pos.size p.
Proof. induction p; simpl; congruence. Qed.

Lemma Zdigits2_nonneg m : 0 <= Zdigits2 m.
Proof. destruct m; simpl; lia. Qed.

Lemma Zdigits2_gt m : 0 <= m -> m < 2 ^ Zdigits2 m.
Proof.
  destruct m as [|p|p]; simpl; try lia.
  intros _. rewrite digits2_pos_size.
  pose proof (Pos.size_gt p) as H.
  apply Pos2Z.pos_lt_pos in H. rewrite Pos2Z.inj_pow in H. exact H.
Qed.

Lemma Zdigits2_le m : 0 < m -> 2 ^ (Zdigits2 m - 1) <= m.
Proof.
  destruct m as [|p|p]; try lia.
  intros _. unfold Zdigits2. rewrite digits2_pos_size.
  pose proof (Pos.size_le p) as H.
  apply Pos2Z.pos_le_pos in H. rewrite Pos2Z.inj_pow, (Pos2Z.inj_xO p) in H.
  replace (Z.pos (Pos.size p)) with (Z.succ (Z.pos (Pos.size p) - 1)) in H at 1 by lia.
  rewrite Z.pow_succ_r in H by lia.
  lia.
Qed.

Lemma Zdigits2_below m k : 0 <= m < 2 ^ k -> 0 <= k -> Zdigits2 m <= k.
Proof.
  intros [H0 Hk] Hk0.
  destruct (Z.eq_dec m 0) as [->|Hm]; [simpl; lia|].
  pose proof (Zdigits2_le m ltac:(lia)) as Hl.
  assert (2 ^ (Zdigits2 m - 1) < 2 ^ k) by lia.
  apply Z.pow_lt_mono_r_iff in H; lia.
Qed.

Lemma shr_1_m mrs : 0 <= shr_m mrs -> shr_m (shr_1 mrs) = shr_m mrs / 2.
Proof.
  destruct mrs as [m r s]. simpl. intros Hm.
  destruct m as [|[p|p|]|p]; simpl; try lia; try reflexivity.
  - rewrite Pos2Z.inj_xI. apply Z.div_unique with 1; lia.
  - rewrite Pos2Z.inj_xO. apply Z.div_unique with 0; lia.
Qed.

Lemma iter_shr_1_m p : forall mrs, 0 <= shr_m mrs ->
  shr_m (iter_pos shr_1 p mrs) = shr_m mrs / 2 ^ Z.pos p.
Proof.
  induction p as [p IH|p IH|]; intros mrs Hm; simpl iter_pos.
  - assert (H1 : 0 <= shr_m (shr_1 mrs)).
    { rewrite shr_1_m by assumption. apply Z.div_pos; lia. }
    assert (H2 : 0 <= shr_m (iter_pos shr_1 p (shr_1 mrs))).
    { rewrite IH by assumption. apply Z.div_pos; [assumption|]. apply Z.pow_pos_nonneg; lia. }
    rewrite IH, IH, shr_1_m by assumption.
    rewrite !Z.div_div by (try apply Z.pow_pos_nonneg; lia).
    f_equal. rewrite Pos2Z.inj_xI.
    rewrite <- Z.pow_add_r by lia. rewrite <- Z.pow_succ_r by lia. f_equal. lia.
  - assert (H2 : 0 <= shr_m (iter_pos shr_1 p mrs)).
    { rewrite IH by assumption. apply Z.div_pos; [assumption|]. apply Z.pow_pos_nonneg; lia. }
    rewrite IH, IH by assumption.
    rewrite !Z.div_div by (try apply Z.pow_pos_nonneg; lia).
    f_equal. rewrite Pos2Z.inj_xO.
    rewrite <- Z.pow_add_r by lia. f_equal. lia.
  - rewrite shr_1_m by assumption. reflexivity.
Qed.

Lemma fexp64 k : fexp prec emax k = Z.max (k - 53) (-1074).
Proof. reflexivity. Qed.

Lemma round_nearest_even_bounds m l :
  m <= round_nearest_even m l <= m + 1.
Proof.
  destruct l as [|[]]; simpl; try lia. destruct (Z.even m); lia.
Qed.

Lemma shr_m_record_of_loc m l : shr_m (shr_record_of_loc m l) = m.
Proof. destruct l as [|[]]; reflexivity. Qed.

Lemma shr_nonneg mrs e n :
  0 <= shr_m mrs -> 0 <= shr_m (fst (shr mrs e n)).
Proof.
  intros H. destruct n as [|p|p]; simpl; try assumption.
  rewrite iter_shr_1_m by assumption.
  apply Z.div_pos; [assumption | apply Z.pow_pos_nonneg; lia].
Qed.

Lemma shr_fexp_nonneg m e l :
  0 <= m -> 0 <= shr_m (fst (shr_fexp prec emax m e l)).
Proof.
  intros H. unfold shr_fexp. apply shr_nonneg.
  now rewrite shr_m_record_of_loc.
Qed.

Lemma binary_round_aux_sign s m e l :
  0 <= m -> Binary64.has_sign s (binary_round_aux prec emax s m e l).
Proof.
  intros Hm. unfold binary_round_aux.
  pose proof (shr_fexp_nonneg m e l Hm) as H1.
  destruct (shr_fexp prec emax m e l) as [mrs1 e1]. simpl in H1.
  pose proof (round_nearest_even_bounds (shr_m mrs1) (loc_of_shr_record mrs1)) as Hr.
  pose proof (shr_fexp_nonneg (round_nearest_even (shr_m mrs1) (loc_of_shr_record mrs1))
                e1 loc_Exact ltac:(lia)) as H2.
  destruct (shr_fexp prec emax _ e1 loc_Exact) as [mrs2 e2]. simpl in H2.
  destruct (shr_m mrs2) as [|p|p]; try lia; [reflexivity |].
  destruct (e2 <=? emax - prec); reflexivity.
Qed.

Lemma two53 : 2 ^ 53 = 9007199254740992.
Proof. reflexivity. Qed.

Lemma shr_fexp_first q e' l :
  0 <= q < 2 ^ (- e') -> -1074 <= e' <= -53 ->
  0 <= shr_m (fst (shr_fexp prec emax q e' l)) < 9007199254740992 /\
  -1074 <= snd (shr_fexp prec emax q e' l) <= -53.
Proof.
  intros [Hq0 Hq] He.
  pose proof (Zdigits2_nonneg q) as Hd0.
  pose proof (Zdigits2_below q (- e') (conj Hq0 Hq) ltac:(lia)) as Hd.
  pose proof (Zdigits2_gt q Hq0) as Hgt.
  pose proof two53 as H53.
  unfold shr_fexp. rewrite fexp64.
  remember (Z.max (Zdigits2 q + e' - 53) (-1074) - e') as n eqn:Hn.
  destruct n as [|p|p]; cbn [shr fst snd]; rewrite ?shr_m_record_of_loc.
  - assert (2 ^ Zdigits2 q <= 2 ^ 53) by (apply Z.pow_le_mono_r; lia). lia.
  - rewrite iter_shr_1_m by (rewrite shr_m_record_of_loc; lia).
    rewrite shr_m_record_of_loc.
    assert (Hp : 0 < 2 ^ Z.pos p) by (apply Z.pow_pos_nonneg; lia).
    split; [split |]; try lia.
    + apply Z.div_pos; lia.
    + apply Z.div_lt_upper_bound; [assumption |].
      assert (2 ^ (Z.pos p + 53) = 2 ^ Z.pos p * 2 ^ 53) by (apply Z.pow_add_r; lia).
      assert (2 ^ Zdigits2 q <= 2 ^ (Z.pos p + 53)) by (apply Z.pow_le_mono_r; lia).
      lia.
  - assert (2 ^ Zdigits2 q <= 2 ^ 53) by (apply Z.pow_le_mono_r; lia). lia.
Qed.

Lemma shr_fexp_second mr e1 :
  0 <= mr <= 9007199254740992 -> -1074 <= e1 <= -53 ->
  (shr_m (fst (shr_fexp prec emax mr e1 loc_Exact)) = mr /\
   snd (shr_fexp prec emax mr e1 loc_Exact) = e1 /\ mr < 9007199254740992) \/
  (shr_m (fst (shr_fexp prec emax mr e1 loc_Exact)) = 4503599627370496 /\
   snd (shr_fexp prec emax mr e1 loc_Exact) = e1 + 1 /\ mr = 9007199254740992).
Proof.
  intros [H0 Hm] He.
  destruct (Z.eq_dec mr 9007199254740992) as [->|Hne].
  - right. unfold shr_fexp. rewrite fexp64.
    change (Zdigits2 9007199254740992) with 54.
    replace (Z.max (54 + e1 - 53) (-1074) - e1) with 1 by lia.
    repeat split.
  - left. assert (Hlt : mr < 2 ^ 53) by (rewrite two53; lia).
    pose proof (Zdigits2_nonneg mr) as Hd0.
    pose proof (Zdigits2_below mr 53 (conj H0 Hlt) ltac:(lia)) as Hd.
    unfold shr_fexp. rewrite fexp64.
    remember (Z.max (Zdigits2 mr + e1 - 53) (-1074) - e1) as n eqn:Hn.
    destruct n as [|p|p]; cbn [shr fst snd]; try lia; repeat split; auto; lia.
Qed.

Lemma binary_round_aux_le_one q e' l :
  0 <= q < 2 ^ (- e') -> -1074 <= e' <= -53 ->
  SFleb (binary_round_aux prec emax false q e' l) Binary64.one = true.
Proof.
  intros Hq He. unfold binary_round_aux.
  destruct (shr_fexp_first q e' l Hq He) as [Hm1 He1].
  destruct (shr_fexp prec emax q e' l) as [mrs1 e1]. cbn [fst snd] in Hm1, He1.
  pose proof (round_nearest_even_bounds (shr_m mrs1) (loc_of_shr_record mrs1)) as Hr.
  set (mr := round_nearest_even (shr_m mrs1) (loc_of_shr_record mrs1)) in *.
  destruct (shr_fexp_second mr e1 ltac:(lia) He1) as [[Hm2 [He2 Hlt]] | [Hm2 [He2 Heq]]];
    destruct (shr_fexp prec emax mr e1 loc_Exact) as [mrs2 e2]; cbn [fst snd] in Hm2, He2;
    rewrite Hm2; subst e2.
  - destruct mr as [|p|p]; try reflexivity; try lia.
    replace (e1 <=? emax - prec) with true
      by (symmetry; apply Z.leb_le; unfold emax, prec; lia).
    unfold Binary64.one, SFleb, SFcompare.
    replace (e1 ?= -52) with Lt by (symmetry; apply Z.compare_lt_iff; lia).
    reflexivity.
  - replace (e1 + 1 <=? emax - prec) with true
      by (symmetry; apply Z.leb_le; unfold emax, prec; lia).
    unfold Binary64.one, SFleb, SFcompare.
    destruct (Z.compare_spec (e1 + 1) (-52)) as [E|E|E]; try reflexivity; lia.
Qed.

Lemma bounded_inv m e :
  bounded prec emax m e = true ->
  1 <= Zdigits2 (Z.pos m) <= 53 /\ -1074 <= e /\ Z.pos m < 9007199254740992.
Proof.
  unfold bounded, canonical_mantissa. rewrite andb_true_iff, fexp64.
  intros [Hc _]. apply Z.eqb_eq in Hc.
  change (Z.pos (digits2_pos m)) with (Zdigits2 (Z.pos m)) in Hc.
  assert (Hd : 1 <= Zdigits2 (Z.pos m)) by (unfold Zdigits2; lia).
  assert (Hd53 : Zdigits2 (Z.pos m) <= 53) by lia.
  repeat split; try lia.
  pose proof (Zdigits2_gt (Z.pos m) ltac:(lia)) as Hgt.
  assert (2 ^ Zdigits2 (Z.pos m) <= 2 ^ 53) by (apply Z.pow_le_mono_r; lia).
  rewrite two53 in *. lia.
Qed.

Lemma SFdiv_core_c100 m e :
  bounded prec emax m e = true ->
  e < -46 \/ (e = -46 /\ Z.pos m < 7036874417766400) ->
  let '(q, e', _) :=
    SFdiv_core_binary prec emax (Z.pos m) e 7036874417766400 (-46) in
  0 <= q < 2 ^ (- e') /\ -1074 <= e' <= -53.
Proof.
  intros Hb Hle.
  destruct (bounded_inv m e Hb) as [Hd [He Hm]].
  unfold SFdiv_core_binary. rewrite fexp64.
  change (Zdigits2 7036874417766400) with 53.
  set (d := Zdigits2 (Z.pos m)) in *.
  set (e' := Z.min (Z.max (d + e - (53 + -46) - 53) (-1074)) (e - -46)).
  assert (He' : -1074 <= e' <= -53) by (unfold e'; lia).
  assert (Hs : 0 <= e - -46 - e') by (unfold e'; lia).
  set (s := e - -46 - e') in *.
  set (m' := match s with Z.pos _ => Z.shiftl (Z.pos m) s | 0 => Z.pos m | Z.neg _ => 0 end).
  assert (Hm' : m' = Z.pos m * 2 ^ s).
  { unfold m'. destruct s as [|p|p] eqn:Es; try lia.
    rewrite Z.shiftl_mul_pow2 by lia. reflexivity. }
  clearbody m'.
  pose proof (Z.div_eucl_eq m' 7036874417766400 ltac:(lia)) as Hdiv.
  pose proof (Z.mod_pos_bound m' 7036874417766400 ltac:(lia)) as Hmod.
  unfold Z.modulo in Hmod.
  destruct (Z.div_eucl m' 7036874417766400) as [q r].
  split; [| exact He'].
  assert (Hk : 0 <= -46 - e) by lia.
  assert (Hpow : 2 ^ (- e') = 2 ^ s * 2 ^ (-46 - e)).
  { rewrite <- Z.pow_add_r by lia. f_equal. unfold s. lia. }
  assert (Hs0 : 0 < 2 ^ s) by (apply Z.pow_pos_nonneg; lia).
  assert (Hlt : Z.pos m < 7036874417766400 * 2 ^ (-46 - e)).
  { destruct Hle as [Hlt | [-> Hlt]].
    - assert (2 ^ 1 <= 2 ^ (-46 - e)) by (apply Z.pow_le_mono_r; lia).
      change (2 ^ 1) with 2 in *. lia.
    - change (2 ^ (-46 - -46)) with 1. lia. }
  assert (Hm'lt : m' < 7036874417766400 * 2 ^ (- e')).
  { rewrite Hm', Hpow. nia. }
  split; nia.
Qed.

Lemma has_sign_false_nonneg r : Binary64.has_sign false r -> SFleb Binary64.zero r = true.
Proof.
  destruct r as [s|s| |s m e]; simpl; intros H; try contradiction; subst; reflexivity.
Qed.

Lemma has_sign_eqb_refl s r : Binary64.has_sign s r -> SFeqb r r = true.
Proof.
  destruct r as [s'|s'| |s' m e]; simpl; intros H; try contradiction.
  - reflexivity.
  - destruct s'; reflexivity.
  - unfold SFeqb, SFcompare. rewrite Z.compare_refl, Pos.compare_cont_refl.
    destruct s'; reflexivity.
Qed.

Lemma SFeqb_refl_inv r : SFeqb r r = true -> r <> S754_nan.
Proof. intros H ->. discriminate. Qed.

(** Dividing a number by 100 gives a number. *)
Lemma SF64div_c100_sign x :
  x <> S754_nan ->
  exists s, Binary64.has_sign s (SF64div x Binary64.hundred).
Proof.
  destruct x as [s|s| |s m e]; intros Hx.
  - exists (xorb s false). reflexivity.
  - exists (xorb s false). reflexivity.
  - contradiction.
  - exists (xorb s false). unfold SF64div, SFdiv, Binary64.hundred.
    assert (Hq : 0 <= fst (fst (SFdiv_core_binary prec emax (Z.pos m) e 7036874417766400 (-46)))).
    { unfold SFdiv_core_binary.
      set (m' := match _ with Z.pos _ => Z.shiftl (Z.pos m) _ | 0 => Z.pos m | Z.neg _ => 0 end).
      assert (Hm' : 0 <= m').
      { unfold m'. destruct (_ - _ - _); try lia. apply Z.shiftl_nonneg. lia. }
      pose proof (Z.div_pos m' 7036874417766400 Hm' ltac:(lia)) as Hd.
      unfold Z.div in Hd. destruct (Z.div_eucl m' 7036874417766400). exact Hd. }
    destruct (SFdiv_core_binary prec emax (Z.pos m) e 7036874417766400 (-46)) as [[q e'] l].
    apply binary_round_aux_sign. exact Hq.
Qed.

Lemma SF64div_c100_range x :
  valid_binary x = true ->
  SFleb Binary64.zero x = true -> SFleb x Binary64.hundred = true ->
  SFleb Binary64.zero (SF64div x Binary64.hundred) = true /\ SFleb (SF64div x Binary64.hundred) Binary64.one = true.
Proof.
  intros Hv H0 H100.
  destruct x as [s|s| |s m e]; try discriminate.
  - destruct s; split; reflexivity.
  - destruct s; discriminate.
  - destruct s; [discriminate |].
    assert (Hle : e < -46 \/ (e = -46 /\ Z.pos m <= 7036874417766400)).
    { unfold SFleb, SFcompare, Binary64.hundred in H100.
      destruct (Z.compare_spec e (-46)) as [E|E|E]; try discriminate; [right | left; lia].
      split; [exact E |].
      destruct (Pos.compare_cont Eq m 7036874417766400) eqn:Ec; try discriminate.
      - apply Pos.compare_eq in Ec. subst. lia.
      - assert (Hlt : (m < 7036874417766400)%positive) by exact Ec.
        apply Pos2Z.pos_lt_pos in Hlt. clear - Hlt. lia. }
    destruct (Z.eq_dec (Z.pos m) 7036874417766400) as [Em | Em];
      [destruct (Z.eq_dec e (-46)) as [Ee | Ee] |].
    + injection Em as ->. subst e. split; vm_compute; reflexivity.
    + assert (Hlt : e < -46 \/ (e = -46 /\ Z.pos m < 7036874417766400)) by lia.
      pose proof (SFdiv_core_c100 m e Hv Hlt) as Hcore.
      unfold SF64div, SFdiv, Binary64.hundred.
      destruct (SFdiv_core_binary prec emax (Z.pos m) e 7036874417766400 (-46)) as [[q e'] l].
      destruct Hcore as [Hq He']. split.
      * apply has_sign_false_nonneg, binary_round_aux_sign. lia.
      * apply binary_round_aux_le_one; assumption.
    + assert (Hlt : e < -46 \/ (e = -46 /\ Z.pos m < 7036874417766400)) by lia.
      pose proof (SFdiv_core_c100 m e Hv Hlt) as Hcore.
      unfold SF64div, SFdiv, Binary64.hundred.
      destruct (SFdiv_core_binary prec emax (Z.pos m) e 7036874417766400 (-46)) as [[q e'] l].
      destruct Hcore as [Hq He']. split.
      * apply has_sign_false_nonneg, binary_round_aux_sign. lia.
      * apply binary_round_aux_le_one; assumption.
Qed.

End Binary64Integers.

(** From the specification back to primitive floats. *)

Lemma is_nan_SF (x : float) : PrimFloat.is_nan x = false <-> Prim2SF x <> S754_nan.
Proof.
  unfold PrimFloat.is_nan. rewrite FloatAxioms.eqb_spec. split.
  - intros H. apply SFeqb_refl_inv. now apply negb_false_iff.
  - intros H. apply negb_false_iff.
    destruct (Prim2SF x) as [s|s| |s m e] eqn:E; try contradiction.
    + reflexivity.
    + destruct s; reflexivity.
    + apply (has_sign_eqb_refl s). reflexivity.
Qed.

(** [x / 100] is a number when [x] is. *)
Lemma div100_is_number (x : number) :
  isNaN x = false -> isNaN (x / 100)%float = false.
Proof.
  unfold isNaN. intros H. apply is_nan_SF in H. apply is_nan_SF.
  rewrite FloatAxioms.div_spec. change (Prim2SF 100%float) with Binary64.hundred.
  destruct (SF64div_c100_sign (Prim2SF x) H) as [s Hs].
  intros E. rewrite E in Hs. exact Hs.
Qed.

(** Round-to-nearest division by 100 maps [[0, 100]] into [[0, 1]]. *)
Lemma div100_range (x : number) :
  PrimFloat.leb 0%float x = true -> PrimFloat.leb x 100%float = true ->
  in_unit_interval (x / 100)%float = true.
Proof.
  unfold in_unit_interval.
  rewrite !FloatAxioms.leb_spec, FloatAxioms.div_spec.
  change (Prim2SF 100%float) with Binary64.hundred.
  change (Prim2SF 0%float) with Binary64.zero.
  change (Prim2SF 1%float) with Binary64.one.
  intros H0 H100.
  destruct (SF64div_c100_range (Prim2SF x) (Prim2SF_valid x) H0 H100) as [-> ->].
  reflexivity.
Qed.

(** lodash's [clamp] to [[0, 1]] of a number lands in [[0, 1]]. *)
Lemma clamp_unit_interval (y : number) :
  isNaN y = false -> in_unit_interval (Lodash.clamp y 0%float 1%float) = true.
Proof.
  unfold isNaN, PrimFloat.is_nan. intros H. apply negb_false_iff in H.
  unfold Lodash.clamp, Lodash.baseClamp, strict_eq, geb, in_unit_interval.
  change (PrimFloat.eqb 1%float 1%float) with true.
  change (PrimFloat.eqb 0%float 0%float) with true.
  cbv iota. rewrite H.
  destruct (PrimFloat.leb y 1%float) eqn:E1.
  - destruct (PrimFloat.leb 0%float y) eqn:E0.
    + rewrite E0, E1. reflexivity.
    + reflexivity.
  - reflexivity.
Qed.

Lemma skipn_length_app {A : Type} (l r : list A) :
  skipn (List.length l) (l ++ r) = r.
Proof.
  induction l as [|x l IH]; simpl; [reflexivity | exact IH].
Qed.

Lemma emitted_ret {A : Type} (a : A) (w : World) : emitted (ret a) w = [].
Proof.
  unfold emitted, exec, ret; simpl. apply skipn_all.
Qed.

Lemma emitted_of_trace {A : Type} (m : M A) (w : World) (es : list Event) :
  trace (exec m w) = trace w ++ es -> emitted m w = es.
Proof.
  intros H. unfold emitted. rewrite H. apply skipn_length_app.
Qed.

Ltac run :=
  unfold handle, onClick, listener, effect, onKeyDown, onBlur, onChangeSlider,
    onChangeNumberInput, syncLocalOpacity, onChange, addInpaintMask, addRegionalGuidance,
    addRasterLayer, addControlLayer, addIPAdapter, exec, completion, bind, ret,
    throw, dispatch, call, setLocalOpacity, shift_get, getState; simpl.

(** *** The enqueue listener *)

Lemma predicate_true_inv (action : Action) :
  predicate action = true ->
  exists p, action = enqueueRequested p /\ EnqueueRequested.tabName p = "nodes".
Proof.
  destruct action; unfold predicate; simpl; try discriminate.
  intros H. exists p. split; [reflexivity | now apply String.eqb_eq].
Qed.

Lemma predicate_nodes (p : EnqueueRequested.payload) :
  EnqueueRequested.tabName p = "nodes" -> predicate (enqueueRequested p) = true.
Proof.
  intros H. unfold predicate. simpl. rewrite H. reflexivity.
Qed.

Lemma listener_accepted (p : EnqueueRequested.payload) :
  predicate (enqueueRequested p) = true ->
  listener (enqueueRequested p) = effect p.
Proof.
  intros H. unfold listener. rewrite H. reflexivity.
Qed.

(** The batch config the effect builds from a state and a payload. *)
Lemma effect_trace (p : EnqueueRequested.payload) (w : World) :
  trace (exec (effect p) w) =
  trace w ++
    [ Dispatched
        (enqueueBatch_initiate
           {| batch := {| graph := buildNodesGraph (nodes (store w));
                          workflow := buildWorkflow (nodes (store w));
                          runs := iterations (generation (store w)) |};
              prepend := EnqueueRequested.prepend p |}
           "enqueueBatch");
      RequestCall (List.length (trace w)) reset ].
Proof.
  run. rewrite <- app_assoc. reflexivity.
Qed.

(** C1. When the listener runs its effect for an [enqueueRequested] action
    whose tab is ['nodes'], the first thing it sends is the [enqueueBatch]
    request, and the request's argument is built from the store state [s]
    read when the effect starts: its graph is [buildNodesGraph s.nodes],
    its workflow [buildWorkflow s.nodes], its runs
    [s.generation.iterations], and its prepend flag the action's. *)
Theorem listener_enqueues_serialized_state
  (p : EnqueueRequested.payload) (w : World) :
  EnqueueRequested.tabName p = "nodes" ->
  exists (batchConfig : BatchConfig) (after : list Event),
    emitted (listener (enqueueRequested p)) w =
      Dispatched (enqueueBatch_initiate batchConfig "enqueueBatch") :: after /\
    graph (batch batchConfig) = buildNodesGraph (nodes (store w)) /\
    workflow (batch batchConfig) = buildWorkflow (nodes (store w)) /\
    runs (batch batchConfig) = iterations (generation (store w)) /\
    prepend batchConfig = EnqueueRequested.prepend p.
Proof.
  intros Htab.
  eexists; eexists. split.
  - apply emitted_of_trace.
    rewrite (listener_accepted p (predicate_nodes p Htab)).
    rewrite effect_trace. simpl. reflexivity.
  - simpl. repeat split.
Qed.

(** C4. For an action the predicate accepts, the effect dispatches exactly
    one action, the [enqueueBatch] request; it never dispatches again (no
    retry) and the only method it calls on the handle that dispatch
    returned is one [reset] (no [abort]). *)
Theorem listener_single_request (action : Action) (w : World) :
  predicate action = true ->
  exists batchConfig : BatchConfig,
    dispatches (emitted (listener action) w) =
      [enqueueBatch_initiate batchConfig "enqueueBatch"] /\
    calls (emitted (listener action) w) = [(List.length (trace w), reset)] /\
    emitted (listener action) w =
      [Dispatched (enqueueBatch_initiate batchConfig "enqueueBatch");
       RequestCall (List.length (trace w)) reset].
Proof.
  intros Hp.
  destruct (predicate_true_inv action Hp) as [p [-> Htab]].
  pose proof (emitted_of_trace _ w _
                (eq_trans (f_equal (fun m => trace (exec m w)) (listener_accepted p Hp))
                          (effect_trace p w))) as E.
  eexists. rewrite E. simpl. repeat split.
Qed.

(** C9. The predicate accepts exactly the [enqueueRequested] actions whose
    tab is ['nodes']; for every action it rejects (another tab, another
    action) the listener sends nothing and leaves the world as it was, so
    no [enqueueBatch] request comes from it. *)
Theorem listener_only_for_nodes_tab (action : Action) (w : World) :
  (predicate action = true <->
     exists p, action = enqueueRequested p /\ EnqueueRequested.tabName p = "nodes") /\
  (~ (exists p, action = enqueueRequested p /\ EnqueueRequested.tabName p = "nodes") ->
     exec (listener action) w = w /\
     emitted (listener action) w = [] /\
     forall batchConfig key,
       ~ In (Dispatched (enqueueBatch_initiate batchConfig key))
            (emitted (listener action) w)).
Proof.
  assert (Hiff : predicate action = true <->
                 exists p, action = enqueueRequested p /\
                           EnqueueRequested.tabName p = "nodes").
  { split.
    - apply predicate_true_inv.
    - intros [p [-> Htab]]. now apply predicate_nodes. }
  split; [exact Hiff |].
  intros Hno.
  assert (Hp : predicate action = false).
  { apply not_true_is_false. intros Hp. apply Hno, Hiff, Hp. }
  assert (E : exec (listener action) w = w).
  { unfold listener. rewrite Hp. reflexivity. }
  assert (E' : emitted (listener action) w = []).
  { unfold emitted. rewrite E. apply skipn_all. }
  repeat split; auto.
  intros batchConfig key. rewrite E'. simpl. tauto.
Qed.

(** *** The add-entity buttons *)

(** C5. A click on one of the five buttons dispatches exactly one action,
    the one that belongs to the button, and does nothing else: the world
    after the click is the world after that single dispatch. *)
Theorem onClick_dispatches_one_action
  (defaultControlAdapter : ControlAdapter) (defaultIPAdapter : IPAdapter)
  (b : Button) (w : World) :
  let added :=
    match b with
    | InpaintMaskButton => inpaintMaskAdded
    | RegionalGuidanceButton => rgAdded
    | RasterLayerButton => rasterLayerAdded true
    | ControlLayerButton =>
        controlLayerAdded true {| controlAdapter := defaultControlAdapter |}
    | IPAdapterButton => ipaAdded defaultIPAdapter
    end in
  emitted (onClick defaultControlAdapter defaultIPAdapter b) w = [Dispatched added] /\
  exec (onClick defaultControlAdapter defaultIPAdapter b) w = exec (dispatch added) w /\
  completion (onClick defaultControlAdapter defaultIPAdapter b) w = Normal tt.
Proof.
  destruct b; simpl; (split; [apply emitted_of_trace | split]); reflexivity.
Qed.

(** *** The opacity input and slider *)

Lemma onKeyDown_Enter (selected : option CanvasEntityIdentifier) (local : number) :
  onKeyDown selected local "Enter" = onBlur selected local.
Proof. reflexivity. Qed.

(** C8. With no entity selected, a slider change, a blur and an Enter
    keydown all return at once: they send nothing and leave the world,
    the store included, as it was. *)
Theorem no_selection_no_dispatch (local opacity : number) (w : World) :
  (exec (onChangeSlider None opacity) w = w /\
   emitted (onChangeSlider None opacity) w = []) /\
  (exec (onBlur None local) w = w /\
   emitted (onBlur None local) w = []) /\
  (exec (onKeyDown None local "Enter") w = w /\
   emitted (onKeyDown None local "Enter") w = []).
Proof.
  repeat split; try reflexivity; apply emitted_ret.
Qed.

Lemma onBlur_emitted
  (entityIdentifier : CanvasEntityIdentifier) (local : number) (w : World) :
  emitted (onBlur (Some entityIdentifier) local) w =
  if isNaN (Number local) then []
  else [Dispatched
          (entityOpacityChanged entityIdentifier
             (Lodash.clamp (local / 100)%float 0%float 1%float))].
Proof.
  unfold onBlur. destruct (isNaN (Number local)).
  - unfold emitted. run. apply skipn_all.
  - apply emitted_of_trace. reflexivity.
Qed.

(** C3, as the code has it.  With an entity selected, a blur or an Enter
    keydown on a local value that is not a number resets the local value
    to 100 and sends nothing, so the store is unchanged; on a numeric
    local value it dispatches [entityOpacityChanged] for the selected
    entity with [clamp(localOpacity / 100, 0, 1)] and keeps the local
    value.  With no entity selected the handler returns before it looks
    at the local value. *)
Theorem onBlur_with_selection
  (entityIdentifier : CanvasEntityIdentifier) (local : number) (w : World) :
  let selected := Some entityIdentifier in
  (if isNaN (Number local) then
     exec (onBlur selected local) w =
       {| store := store w; localOpacity := 100%float;
          shift := shift w; trace := trace w |} /\
     emitted (onBlur selected local) w = []
   else
     emitted (onBlur selected local) w =
       [Dispatched
          (entityOpacityChanged entityIdentifier
             (Lodash.clamp (local / 100)%float 0%float 1%float))] /\
     localOpacity (exec (onBlur selected local) w) = localOpacity w) /\
  onKeyDown selected local "Enter" = onBlur selected local /\
  exec (onBlur None local) w = w.
Proof.
  cbv zeta. split; [| split; reflexivity].
  rewrite onBlur_emitted. unfold onBlur.
  destruct (isNaN (Number local)); split; reflexivity.
Qed.

(** *** The log-level combobox *)

Section LogLevelGuard.

(** [isLogLevel] is a type guard for the log levels, which are strings:
    it rejects [undefined]. *)
Hypothesis isLogLevel_undefined : isLogLevel None = false.

(** C2. On a change to [v], [logLevelChanged(v.value)] is dispatched if
    and only if [isLogLevel(v?.value)] holds, and then it is the one thing
    dispatched; when the value is not a log level, and so when [v] is
    [null], the handler returns with nothing dispatched and the world, the
    store's log level included, as it was. *)
Theorem onChange_dispatches_iff_log_level (v : option ComboboxOption) (w : World) :
  completion (onChange v) w = Normal tt /\
  (isLogLevel (optional_value v) = true <->
     exists o, v = Some o /\
       In (Dispatched (logLevelChanged (value o))) (emitted (onChange v) w)) /\
  (isLogLevel (optional_value v) = true ->
     exists o, v = Some o /\
       emitted (onChange v) w = [Dispatched (logLevelChanged (value o))]) /\
  (isLogLevel (optional_value v) = false ->
     emitted (onChange v) w = [] /\
     exec (onChange v) w = w /\
     logLevel (system (store (exec (onChange v) w))) = logLevel (system (store w))) /\
  (v = None -> emitted (onChange v) w = [] /\ exec (onChange v) w = w).
Proof.
  assert (Hyes : isLogLevel (optional_value v) = true ->
                 exists o, v = Some o /\
                   emitted (onChange v) w = [Dispatched (logLevelChanged (value o))]).
  { intros H. destruct v as [o|]; simpl in H.
    - exists o. split; [reflexivity |].
      apply emitted_of_trace. unfold onChange. simpl. rewrite H. reflexivity.
    - rewrite isLogLevel_undefined in H. discriminate. }
  assert (Hno : isLogLevel (optional_value v) = false ->
                emitted (onChange v) w = [] /\ exec (onChange v) w = w).
  { intros H. unfold emitted, exec, onChange. rewrite H. simpl.
    split; [apply skipn_all | reflexivity]. }
  split; [| split; [| split; [exact Hyes | split]]].
  - unfold completion, onChange.
    destruct v as [o|]; simpl.
    + destruct (isLogLevel (Some (value o))); reflexivity.
    + rewrite isLogLevel_undefined. reflexivity.
  - split.
    + intros H. destruct (Hyes H) as [o [-> E]]. exists o.
      split; [reflexivity |]. rewrite E. left. reflexivity.
    + intros [o [-> Hin]].
      apply not_false_is_true. intros E.
      destruct (Hno E) as [E' _]. rewrite E' in Hin. destruct Hin.
  - intros H. destruct (Hno H) as [E1 E2]. rewrite E2. auto.
  - intros ->. apply Hno. exact isLogLevel_undefined.
Qed.

End LogLevelGuard.

(** *** Durable state is reached through the store only *)

Lemma exec_bind {A B : Type} (m : M A) (k : A -> M B) (w : World) :
  exec (bind m k) w =
  match m w with
  | (Normal a, w1) => exec (k a) w1
  | (Throw _, w1) => w1
  end.
Proof.
  unfold exec, bind. destruct (m w) as [[a|e] w1]; reflexivity.
Qed.

Lemma through_store_ret {A : Type} (a : A) : through_store (ret a).
Proof.
  intros w. exists []. rewrite app_nil_r. repeat split.
Qed.

Lemma through_store_throw {A : Type} (e : string) : through_store (@throw A e).
Proof.
  intros w. exists []. rewrite app_nil_r. repeat split.
Qed.

Lemma through_store_bind {A B : Type} (m : M A) (k : A -> M B) :
  through_store m -> (forall a, through_store (k a)) -> through_store (bind m k).
Proof.
  intros Hm Hk w. destruct (Hm w) as [es [Ht [Hs Hf]]].
  rewrite exec_bind. unfold exec in Ht, Hs.
  destruct (m w) as [[a|e] w1]; simpl in Ht, Hs.
  - destruct (Hk a w1) as [es' [Ht' [Hs' Hf']]].
    exists (es ++ es'). rewrite Ht', Hs', Ht, Hs. repeat split.
    + now rewrite app_assoc.
    + unfold apply_events. now rewrite fold_left_app.
    + rewrite forallb_app, Hf, Hf'. reflexivity.
  - exists es. auto.
Qed.

Lemma through_store_dispatch (a : Action) :
  sanctioned (Dispatched a) = true -> through_store (dispatch a).
Proof.
  intros Ha w. exists [Dispatched a].
  split; [reflexivity | split; [reflexivity |]].
  cbn [forallb]. rewrite Ha. reflexivity.
Qed.

Lemma through_store_call_reset (request : nat) : through_store (call request reset).
Proof.
  intros w. exists [RequestCall request reset]. repeat split.
Qed.

Lemma through_store_setLocalOpacity (v : number) : through_store (setLocalOpacity v).
Proof.
  intros w. exists []. simpl. rewrite app_nil_r. repeat split.
Qed.

Lemma through_store_shift_get : through_store shift_get.
Proof.
  intros w. exists []. simpl. rewrite app_nil_r. repeat split.
Qed.

Lemma through_store_getState : through_store getState.
Proof.
  intros w. exists []. simpl. rewrite app_nil_r. repeat split.
Qed.

Create HintDb frame.

#[local] Hint Resolve through_store_ret through_store_throw through_store_dispatch
  through_store_call_reset through_store_setLocalOpacity through_store_shift_get
  through_store_getState : frame.

Ltac frame :=
  repeat first
    [ apply through_store_bind; [| intros ? ]
    | solve [ auto with frame ] ].

Lemma through_store_onBlur (selected : option CanvasEntityIdentifier) (local : number) :
  through_store (onBlur selected local).
Proof.
  unfold onBlur. destruct selected; [destruct (isNaN (Number local)) |]; frame.
Qed.

Lemma through_store_handle (s : Stimulus) : through_store (handle s).
Proof.
  destruct s as [v | selected local opacity | selected local | str n
                | selected local key | opacity | a i b | action]; simpl.
  - unfold onChange. destruct (negb _); [| destruct v]; frame.
  - unfold onChangeSlider. destruct selected; frame.
  - apply through_store_onBlur.
  - unfold onChangeNumberInput. frame.
  - unfold onKeyDown. destruct (String.eqb key "Enter");
      [apply through_store_onBlur | frame].
  - unfold syncLocalOpacity. frame.
  - destruct b; simpl;
      unfold addInpaintMask, addRegionalGuidance, addRasterLayer,
        addControlLayer, addIPAdapter; frame.
  - unfold listener, effect.
    destruct (predicate action); [destruct (enqueueRequested_match action) |]; frame.
Qed.

Lemma keeps_to_ret (ok : Event -> bool) {A : Type} (a : A) : keeps_to ok (ret a).
Proof.
  intros w. exists []. rewrite app_nil_r. repeat split.
Qed.

Lemma keeps_to_throw (ok : Event -> bool) {A : Type} (e : string) :
  keeps_to ok (@throw A e).
Proof.
  intros w. exists []. rewrite app_nil_r. repeat split.
Qed.

Lemma keeps_to_bind (ok : Event -> bool) {A B : Type} (m : M A) (k : A -> M B) :
  keeps_to ok m -> (forall a, keeps_to ok (k a)) -> keeps_to ok (bind m k).
Proof.
  intros Hm Hk w. destruct (Hm w) as [es [Ht [Hs Hf]]].
  rewrite exec_bind. unfold exec in Ht, Hs.
  destruct (m w) as [[a|e] w1]; simpl in Ht, Hs.
  - destruct (Hk a w1) as [es' [Ht' [Hs' Hf']]].
    exists (es ++ es'). rewrite Ht', Hs', Ht, Hs. repeat split.
    + now rewrite app_assoc.
    + unfold apply_events. now rewrite fold_left_app.
    + rewrite forallb_app, Hf, Hf'. reflexivity.
  - exists es. auto.
Qed.

Lemma keeps_to_dispatch (ok : Event -> bool) (a : Action) :
  ok (Dispatched a) = true -> keeps_to ok (dispatch a).
Proof.
  intros Ha w. exists [Dispatched a].
  split; [reflexivity | split; [reflexivity |]].
  cbn [forallb]. rewrite Ha. reflexivity.
Qed.

Lemma keeps_to_call (ok : Event -> bool) (request : nat) (method : RequestMethod) :
  ok (RequestCall request method) = true -> keeps_to ok (call request method).
Proof.
  intros Hc w. exists [RequestCall request method].
  split; [reflexivity | split; [reflexivity |]].
  cbn [forallb]. rewrite Hc. reflexivity.
Qed.

Lemma keeps_to_silent (ok : Event -> bool) {A : Type} (m : M A) :
  (forall w, trace (exec m w) = trace w /\ store (exec m w) = store w) ->
  keeps_to ok m.
Proof.
  intros H w. destruct (H w) as [Ht Hs]. exists [].
  rewrite app_nil_r. repeat split; assumption.
Qed.

Ltac keeps :=
  repeat first
    [ apply keeps_to_bind; [| intros ? ]
    | apply keeps_to_ret
    | apply keeps_to_throw
    | apply keeps_to_dispatch; reflexivity
    | apply keeps_to_call; reflexivity
    | apply keeps_to_silent; intros ?; split; reflexivity ].

Lemma keeps_to_onBlur (ok : Event -> bool)
  (selected : option CanvasEntityIdentifier) (local : number) :
  (forall entityIdentifier opacity,
     ok (Dispatched (entityOpacityChanged entityIdentifier opacity)) = true) ->
  keeps_to ok (onBlur selected local).
Proof.
  intros Hok. unfold onBlur.
  destruct selected; [destruct (isNaN (Number local)) |].
  - keeps.
  - apply keeps_to_bind; [apply keeps_to_dispatch, Hok | intros ?; keeps].
  - keeps.
Qed.

(** Each stimulus is answered with events of its own only. *)
Lemma keeps_to_own (s : Stimulus) : keeps_to (own s) (handle s).
Proof.
  destruct s as [v | selected local opacity | selected local | str n
                | selected local key | opacity | a i b | action]; cbn [handle].
  - unfold onChange. destruct (negb _); [| destruct v]; keeps.
  - unfold onChangeSlider. destruct selected; keeps.
  - apply keeps_to_onBlur. reflexivity.
  - unfold onChangeNumberInput. keeps.
  - unfold onKeyDown. destruct (String.eqb key "Enter");
      [apply keeps_to_onBlur; reflexivity | keeps].
  - unfold syncLocalOpacity. keeps.
  - destruct b; cbn [onClick];
      unfold addInpaintMask, addRegionalGuidance, addRasterLayer,
        addControlLayer, addIPAdapter; keeps.
  - unfold listener, effect.
    destruct (predicate action); [destruct (enqueueRequested_match action) |];
      keeps.
Qed.

Lemma same_part_trans (p : StorePart) (s1 s2 s3 : RootState) :
  same_part p s1 s2 -> same_part p s2 s3 -> same_part p s1 s3.
Proof.
  destruct p; simpl; intros H1 H2; now rewrite H1.
Qed.

Lemma same_part_refl (p : StorePart) (s : RootState) : same_part p s s.
Proof.
  destruct p; reflexivity.
Qed.

(** An event of a stimulus may change no part beyond the stimulus's
    reach. *)
Lemma own_within_reach (s : Stimulus) (a : Action) (p : StorePart) :
  own s (Dispatched a) = true -> reach s p = false -> may_change a p = false.
Proof.
  destruct s as [v | selected local opacity | selected local | str n
                | selected local key | opacity | ca ia b | action];
    try destruct b; destruct a; destruct p; simpl;
    intros H1 H2; try discriminate; reflexivity.
Qed.

Section ConfinedReducer.

(** The store's reducer confines every action to the parts it may
    change. *)
Hypothesis rootReducer_confined :
  forall (s : RootState) (a : Action) (p : StorePart),
    may_change a p = false -> same_part p (rootReducer s a) s.

Lemma own_events_within_reach (s : Stimulus) (p : StorePart) (es : list Event) :
  forallb (own s) es = true -> reach s p = false ->
  forall st, same_part p (apply_events st es) st.
Proof.
  intros Hown Hreach. induction es as [|e es IH]; intros st.
  - apply same_part_refl.
  - cbn [forallb] in Hown. apply andb_true_iff in Hown. destruct Hown as [He Hes].
    change (apply_events st (e :: es)) with (apply_events (apply_event st e) es).
    apply (same_part_trans p _ (apply_event st e)); [apply IH, Hes |].
    destruct e as [a | r m]; cbn [apply_event].
    + apply rootReducer_confined. now apply (own_within_reach s).
    + apply same_part_refl.
Qed.


End ConfinedReducer.

(** *** The range of the dispatched opacity *)

Lemma snapCandidates_eq : snapCandidates = [25; 50; 75]%float.
Proof. reflexivity. Qed.

Lemma sliderDefaultValue_eq : sliderDefaultValue = 10000%float.
Proof. reflexivity. Qed.

(** The blur path stays in the unit interval, whatever the local value. *)
Lemma onBlur_opacity_in_unit_interval
  (selected : option CanvasEntityIdentifier) (local : number) (w : World) :
  forallb in_unit_interval (opacities (emitted (onBlur selected local) w)) = true.
Proof.
  destruct selected as [entityIdentifier|].
  - rewrite onBlur_emitted. destruct (isNaN (Number local)) eqn:E.
    + reflexivity.
    + cbn [opacities flat_map app forallb].
      rewrite clamp_unit_interval; [reflexivity |].
      apply div100_is_number. exact E.
  - unfold onBlur. rewrite emitted_ret. reflexivity.
Qed.

Section SnapContract.

(** What [snapToNearest] returns: the value itself, or one of the
    candidates that lies within the threshold of the value. *)
Hypothesis snapToNearest_spec :
  forall value candidateValues threshold,
    snapToNearest value candidateValues threshold = value \/
    (In (snapToNearest value candidateValues threshold) candidateValues /\
     PrimFloat.leb
       (PrimFloat.abs (value - snapToNearest value candidateValues threshold)%float)
       threshold = true).

Lemma onChangeSlider_emitted
  (entityIdentifier : CanvasEntityIdentifier) (opacity : number) (w : World) :
  emitted (onChangeSlider (Some entityIdentifier) opacity) w =
  [Dispatched
     (entityOpacityChanged entityIdentifier
        (mapSliderValueToOpacity
           (if negb (shift w) then snapToNearest opacity snapCandidates 2%float
            else opacity)))].
Proof.
  apply emitted_of_trace. reflexivity.
Qed.

(** A slider value between the slider's [min] and [max] is dispatched as
    an opacity in the unit interval, snapped or not. *)
Lemma onChangeSlider_opacity_in_unit_interval
  (selected : option CanvasEntityIdentifier) (opacity : number) (w : World) :
  PrimFloat.leb sliderMin opacity = true ->
  PrimFloat.leb opacity sliderMax = true ->
  forallb in_unit_interval
    (opacities (emitted (onChangeSlider selected opacity) w)) = true.
Proof.
  intros Hmin Hmax. destruct selected as [entityIdentifier|].
  - rewrite onChangeSlider_emitted. cbn [opacities flat_map app forallb].
    rewrite andb_true_r. unfold mapSliderValueToOpacity.
    destruct (negb (shift w)); [| now apply div100_range].
    rewrite snapCandidates_eq.
    destruct (snapToNearest_spec opacity [25; 50; 75]%float 2%float)
      as [-> | [Hin _]]; [now apply div100_range |].
    destruct Hin as [<- | [<- | [<- | []]]]; reflexivity.
  - unfold onChangeSlider. rewrite emitted_ret. reflexivity.
Qed.

(** C7, where the code departs from it.  The slider is given
    [sliderDefaultValue], which is [mapOpacityToSliderValue(100)], that is
    10000 and beyond the slider's [max] of 100.  When the slider hands
    that value to [onChangeSlider], no candidate is within the snapping
    threshold, the handler divides by 100 and, unlike the blur path,
    does not clamp: it dispatches the opacity 100, outside of [[0, 1]]. *)
Theorem onChangeSlider_default_value_opacity
  (entityIdentifier : CanvasEntityIdentifier) (w : World) :
  PrimFloat.leb sliderDefaultValue sliderMax = false /\
  emitted (onChangeSlider (Some entityIdentifier) sliderDefaultValue) w =
    [Dispatched (entityOpacityChanged entityIdentifier 100%float)] /\
  in_unit_interval 100%float = false.
Proof.
  split; [reflexivity | split; [| reflexivity]].
  rewrite onChangeSlider_emitted, snapCandidates_eq, sliderDefaultValue_eq.
  assert (E : snapToNearest 10000%float [25; 50; 75]%float 2%float = 10000%float).
  { destruct (snapToNearest_spec 10000%float [25; 50; 75]%float 2%float)
      as [E | [Hin Hnear]]; [exact E |].
    destruct Hin as [E | [E | [E | []]]]; rewrite <- E in Hnear;
      vm_compute in Hnear; discriminate. }
  rewrite E. destruct (negb (shift w)); reflexivity.
Qed.

End SnapContract.

(** * Beyond the claims *)

(** ** More on binary64 division and multiplication by 100 *)

Section Binary64Bounds.

Local Open Scope Z_scope.

Lemma Zdigits2_above m k : 2 ^ k <= m -> 0 <= k -> k + 1 <= Zdigits2 m.
Proof.
  intros Hk Hk0.
  assert (Hm : 0 <= m) by (pose proof (Z.pow_pos_nonneg 2 k); lia).
  pose proof (Zdigits2_gt m Hm) as Hgt.
  pose proof (Zdigits2_nonneg m) as Hd.
  assert (H : 2 ^ k < 2 ^ Zdigits2 m) by lia.
  apply Z.pow_lt_mono_r_iff in H; lia.
Qed.

(** The second alignment leaves a rounded 53-bit mantissa alone and
    renormalises a carry into bit 53, at any exponent from [emin] on. *)
Lemma shr_fexp_carry mr e1 :
  0 <= mr <= 9007199254740992 -> -1074 <= e1 ->
  (shr_m (fst (shr_fexp prec emax mr e1 loc_Exact)) = mr /\
   snd (shr_fexp prec emax mr e1 loc_Exact) = e1 /\ mr < 9007199254740992) \/
  (shr_m (fst (shr_fexp prec emax mr e1 loc_Exact)) = 4503599627370496 /\
   snd (shr_fexp prec emax mr e1 loc_Exact) = e1 + 1 /\ mr = 9007199254740992).
Proof.
  intros [H0 Hm] He.
  destruct (Z.eq_dec mr 9007199254740992) as [->|Hne].
  - right. unfold shr_fexp. rewrite fexp64.
    change (Zdigits2 9007199254740992) with 54.
    replace (Z.max (54 + e1 - 53) (-1074) - e1) with 1 by lia.
    repeat split.
  - left. assert (Hlt : mr < 2 ^ 53) by (rewrite two53; lia).
    pose proof (Zdigits2_nonneg mr) as Hd0.
    pose proof (Zdigits2_below mr 53 (conj H0 Hlt) ltac:(lia)) as Hd.
    unfold shr_fexp. rewrite fexp64.
    remember (Z.max (Zdigits2 mr + e1 - 53) (-1074) - e1) as n eqn:Hn.
    destruct n as [|p|p]; cbn [shr fst snd]; try lia; repeat split; auto; lia.
Qed.

(** The first alignment of a quotient of at least 53 bits keeps exactly
    53 of them. *)
Lemma shr_fexp_normal q e' l :
  4503599627370496 <= q -> -1074 <= e' ->
  let d := Zdigits2 q in
  4503599627370496 <= shr_m (fst (shr_fexp prec emax q e' l)) < 9007199254740992 /\
  shr_m (fst (shr_fexp prec emax q e' l)) = q / 2 ^ (d - 53) /\
  snd (shr_fexp prec emax q e' l) = e' + (d - 53) /\ 53 <= d.
Proof.
  intros Hq He. cbv zeta.
  change 4503599627370496 with (2 ^ 52) in Hq.
  pose proof (Zdigits2_above q 52 Hq ltac:(lia)) as Hd.
  assert (Hq0 : 0 < q) by (pose proof (Z.pow_pos_nonneg 2 52); lia).
  pose proof (Zdigits2_gt q ltac:(lia)) as Hgt.
  pose proof (Zdigits2_le q Hq0) as Hle.
  set (d := Zdigits2 q) in *.
  assert (Hpow : 2 ^ (d - 1) = 2 ^ 52 * 2 ^ (d - 53)).
  { rewrite <- Z.pow_add_r by lia. f_equal. lia. }
  assert (Hpow' : 2 ^ d = 2 ^ 53 * 2 ^ (d - 53)).
  { rewrite <- Z.pow_add_r by lia. f_equal. lia. }
  assert (Hp : 0 < 2 ^ (d - 53)) by (apply Z.pow_pos_nonneg; lia).
  assert (Hb : 2 ^ 52 <= q / 2 ^ (d - 53) < 2 ^ 53).
  { split.
    - apply Z.div_le_lower_bound; lia.
    - apply Z.div_lt_upper_bound; lia. }
  change (2 ^ 52) with 4503599627370496 in Hb.
  change (2 ^ 53) with 9007199254740992 in Hb.
  unfold shr_fexp. rewrite fexp64. fold d.
  replace (Z.max (d + e' - 53) (-1074) - e') with (d - 53) by lia.
  remember (d - 53) as n eqn:Hn.
  destruct n as [|p|p]; cbn [shr fst snd]; rewrite ?shr_m_record_of_loc; try lia.
  - change (2 ^ 0) with 1 in *. rewrite Z.div_1_r in *. repeat split; lia.
  - rewrite iter_shr_1_m by (rewrite shr_m_record_of_loc; lia).
    rewrite shr_m_record_of_loc. repeat split; lia.
Qed.

Lemma binary_round_aux_ge_one q e' l :
  4503599627370496 <= q -> -53 <= e' ->
  (e' = -53 -> 9007199254740992 <= q) ->
  SFleb Binary64.one (binary_round_aux prec emax false q e' l) = true.
Proof.
  intros Hq He H53. unfold binary_round_aux.
  destruct (shr_fexp_normal q e' l Hq ltac:(lia)) as [Hm1 [Hm1q [He1 Hd]]].
  assert (Hd54 : e' = -53 -> 54 <= Zdigits2 q).
  { intros E. apply (Zdigits2_above q 53); [| lia].
    rewrite two53. auto. }
  destruct (shr_fexp prec emax q e' l) as [mrs1 e1]. cbn [fst snd] in Hm1, Hm1q, He1.
  pose proof (round_nearest_even_bounds (shr_m mrs1) (loc_of_shr_record mrs1)) as Hr.
  set (mr := round_nearest_even (shr_m mrs1) (loc_of_shr_record mrs1)) in *.
  assert (He1' : -52 <= e1) by lia.
  destruct (shr_fexp_carry mr e1 ltac:(lia) ltac:(lia)) as [[Hm2 [He2 Hlt]] | [Hm2 [He2 Heq]]];
    destruct (shr_fexp prec emax mr e1 loc_Exact) as [mrs2 e2]; cbn [fst snd] in Hm2, He2;
    rewrite Hm2; subst e2.
  - destruct mr as [|p|p]; try lia.
    destruct (e1 <=? emax - prec); [| reflexivity].
    unfold Binary64.one, SFleb, SFcompare.
    destruct (Z.compare_spec (-52) e1) as [E|E|E]; try reflexivity; try lia.
    assert (Hp : 4503599627370496 <= Z.pos p) by lia.
    destruct (Pos.compare_cont Eq 4503599627370496 p) eqn:Ec; try reflexivity.
    assert (Hgt : (p < 4503599627370496)%positive) by (apply Pos.gt_lt; exact Ec).
    apply Pos2Z.pos_lt_pos in Hgt. clear - Hgt Hp. lia.
  - destruct (e1 + 1 <=? emax - prec); [| reflexivity].
    unfold Binary64.one, SFleb, SFcompare.
    destruct (Z.compare_spec (-52) (e1 + 1)) as [E|E|E]; try reflexivity; lia.
Qed.

Lemma bounded_normal m e :
  bounded prec emax m e = true -> -1074 < e ->
  4503599627370496 <= Z.pos m < 9007199254740992.
Proof.
  intros Hb He.
  destruct (bounded_inv m e Hb) as [Hd [_ Hm]].
  split; [| exact Hm].
  unfold bounded, canonical_mantissa in Hb. rewrite andb_true_iff, fexp64 in Hb.
  destruct Hb as [Hc _]. apply Z.eqb_eq in Hc.
  change (Z.pos (digits2_pos m)) with (Zdigits2 (Z.pos m)) in Hc.
  assert (Hd53 : Zdigits2 (Z.pos m) = 53) by lia.
  pose proof (Zdigits2_le (Z.pos m) ltac:(lia)) as Hle.
  rewrite Hd53 in Hle. change (2 ^ (53 - 1)) with 4503599627370496 in Hle. exact Hle.
Qed.

Lemma SFdiv_core_c100_ge m e :
  bounded prec emax m e = true ->
  -46 < e \/ (e = -46 /\ 7036874417766400 <= Z.pos m) ->
  let '(q, e', _) :=
    SFdiv_core_binary prec emax (Z.pos m) e 7036874417766400 (-46) in
  4503599627370496 <= q /\ -53 <= e' /\ (e' = -53 -> 9007199254740992 <= q).
Proof.
  intros Hb Hge.
  destruct (bounded_normal m e Hb ltac:(lia)) as [Hm52 Hm53].
  destruct (bounded_inv m e Hb) as [Hd _].
  assert (Hd53 : Zdigits2 (Z.pos m) = 53).
  { apply Z.le_antisymm; [lia |].
    apply (Zdigits2_above (Z.pos m) 52); [| lia].
    change (2 ^ 52) with 4503599627370496. lia. }
  unfold SFdiv_core_binary. rewrite fexp64, Hd53.
  change (Zdigits2 7036874417766400) with 53.
  replace (Z.min (Z.max (53 + e - (53 + -46) - 53) (-1074)) (e - -46)) with (e - 7) by lia.
  replace (e - -46 - (e - 7)) with 53 by lia.
  rewrite Z.shiftl_mul_pow2 by lia. rewrite two53.
  pose proof (Z.div_eucl_eq (Z.pos m * 9007199254740992) 7036874417766400 ltac:(lia)) as Hdiv.
  pose proof (Z.mod_pos_bound (Z.pos m * 9007199254740992) 7036874417766400 ltac:(lia)) as Hmod.
  unfold Z.modulo in Hmod.
  destruct (Z.div_eucl (Z.pos m * 9007199254740992) 7036874417766400) as [q r].
  split; [lia | split; [lia |]].
  intros E. assert (e = -46) by lia. lia.
Qed.

Lemma SF64div_c100_ge_one x :
  valid_binary x = true -> SFleb Binary64.hundred x = true ->
  SFleb Binary64.one (SF64div x Binary64.hundred) = true.
Proof.
  intros Hv H100.
  destruct x as [s|s| |s m e]; try discriminate.
  - destruct s; [discriminate | reflexivity].
  - destruct s; [discriminate |].
    assert (Hge : -46 < e \/ (e = -46 /\ 7036874417766400 <= Z.pos m)).
    { unfold SFleb, SFcompare, Binary64.hundred in H100.
      destruct (Z.compare_spec (-46) e) as [E|E|E]; try discriminate; [right | left; lia].
      split; [lia |].
      destruct (Pos.compare_cont Eq 7036874417766400 m) eqn:Ec; try discriminate.
      - apply Pos.compare_eq in Ec. subst. lia.
      - assert (Hlt : (7036874417766400 < m)%positive) by exact Ec.
        apply Pos2Z.pos_lt_pos in Hlt. clear - Hlt. lia. }
    pose proof (SFdiv_core_c100_ge m e Hv Hge) as Hcore.
    unfold SF64div, SFdiv, Binary64.hundred.
    destruct (SFdiv_core_binary prec emax (Z.pos m) e 7036874417766400 (-46)) as [[q e'] l].
    destruct Hcore as [Hq [He' H53]].
    apply binary_round_aux_ge_one; assumption.
Qed.

Lemma SFleb_antisym_one r :
  SFleb r Binary64.one = true -> SFleb Binary64.one r = true -> r = Binary64.one.
Proof.
  destruct r as [s|s| |s m e]; try discriminate.
  - destruct s; discriminate.
  - destruct s; [discriminate |].
    unfold SFleb, SFcompare, Binary64.one.
    destruct (Z.compare_spec e (-52)) as [E|E|E]; try discriminate.
    + subst e. rewrite Z.compare_refl.
      destruct (Pos.compare_cont Eq m 4503599627370496) eqn:E1; try discriminate.
      * apply Pos.compare_eq in E1. now subst.
      * intros _.
        pose proof (Pos.compare_cont_antisym m 4503599627370496 Eq) as H.
        rewrite E1 in H.
        replace (Pos.compare_cont Eq 4503599627370496 m) with Gt
          by exact H.
        discriminate.
    + intros _. replace (-52 ?= e) with Gt; [discriminate |].
      symmetry. apply Z.compare_gt_iff. lia.
Qed.

Lemma SF64div_c100_nonpos x :
  SFleb x Binary64.zero = true ->
  SFleb (SF64div x Binary64.hundred) Binary64.zero = true.
Proof.
  intros H0.
  destruct x as [s|s| |s m e]; try discriminate.
  - reflexivity.
  - destruct s; [reflexivity | discriminate].
  - destruct s; [| discriminate].
    assert (Hs : Binary64.has_sign true
                   (SF64div (S754_finite true m e) Binary64.hundred)).
    { unfold SF64div, SFdiv, Binary64.hundred.
      assert (Hq : 0 <= fst (fst (SFdiv_core_binary prec emax (Z.pos m) e 7036874417766400 (-46)))).
      { unfold SFdiv_core_binary.
        set (m' := match _ with Z.pos _ => Z.shiftl (Z.pos m) _ | 0 => Z.pos m | Z.neg _ => 0 end).
        assert (Hm' : 0 <= m').
        { unfold m'. destruct (_ - _ - _); try lia. apply Z.shiftl_nonneg. lia. }
        pose proof (Z.div_pos m' 7036874417766400 Hm' ltac:(lia)) as Hd.
        unfold Z.div in Hd. destruct (Z.div_eucl m' 7036874417766400). exact Hd. }
      destruct (SFdiv_core_binary prec emax (Z.pos m) e 7036874417766400 (-46)) as [[q e'] l].
      apply (binary_round_aux_sign true). exact Hq. }
    destruct (SF64div (S754_finite true m e) Binary64.hundred) as [s'|s'| |s' m' e'];
      simpl in Hs; try contradiction; subst; reflexivity.
Qed.

Lemma SFleb_zero_one r :
  SFleb r Binary64.zero = true -> SFleb r Binary64.one = true.
Proof.
  destruct r as [s|s| |s m e]; try discriminate; try reflexivity.
  - destruct s; [reflexivity | discriminate].
  - destruct s; [reflexivity | discriminate].
Qed.

Lemma SFleb_antisym_zero r :
  SFleb r Binary64.zero = true -> SFleb Binary64.zero r = true ->
  SFeqb r Binary64.zero = true.
Proof.
  destruct r as [s|s| |s m e]; try discriminate; try reflexivity.
  - destruct s; discriminate.
  - destruct s; discriminate.
Qed.

(** The first alignment in general: a right shift by the number of bits
    in excess of the format, if any. *)
Lemma shr_fexp_spec q e' l :
  0 <= q ->
  let n := Z.max 0 (Z.max (Zdigits2 q + e' - 53) (-1074) - e') in
  shr_m (fst (shr_fexp prec emax q e' l)) = q / 2 ^ n /\
  snd (shr_fexp prec emax q e' l) = e' + n.
Proof.
  intros Hq. cbv zeta. unfold shr_fexp. rewrite fexp64.
  remember (Z.max (Zdigits2 q + e' - 53) (-1074) - e') as n eqn:Hn.
  destruct n as [|p|p]; cbn [shr fst snd]; rewrite ?shr_m_record_of_loc.
  - change (Z.max 0 0) with 0. change (2 ^ 0) with 1. rewrite Z.div_1_r. split; lia.
  - rewrite iter_shr_1_m by (rewrite shr_m_record_of_loc; lia).
    rewrite shr_m_record_of_loc.
    replace (Z.max 0 (Z.pos p)) with (Z.pos p) by lia. split; reflexivity.
  - replace (Z.max 0 (Z.neg p)) with 0 by lia.
    change (2 ^ 0) with 1. rewrite Z.div_1_r. split; lia.
Qed.

Lemma binary_round_aux_le_hundred q e' l :
  0 <= q -> e' <= -46 -> q < 7036874417766400 * 2 ^ (-46 - e') ->
  SFleb (binary_round_aux prec emax false q e' l) Binary64.hundred = true.
Proof.
  intros Hq He Hlt. unfold binary_round_aux.
  destruct (shr_fexp_spec q e' l Hq) as [Hm1 He1].
  pose proof (Zdigits2_nonneg q) as Hd0.
  pose proof (Zdigits2_gt q Hq) as Hgt.
  set (d := Zdigits2 q) in *.
  set (n := Z.max 0 (Z.max (d + e' - 53) (-1074) - e')) in *.
  assert (Hn0 : 0 <= n) by (unfold n; lia).
  assert (Hpn : 0 < 2 ^ n) by (apply Z.pow_pos_nonneg; lia).
  assert (Hpk : 0 < 2 ^ (-46 - e')) by (apply Z.pow_pos_nonneg; lia).
  (* the quotient has at most 53 + (-46 - e') bits *)
  assert (Hd : d <= 53 + (-46 - e')).
  { apply Zdigits2_below; [| lia]. split; [exact Hq |].
    rewrite Z.pow_add_r by lia. rewrite two53. nia. }
  assert (Hm53 : q / 2 ^ n < 9007199254740992).
  { apply Z.div_lt_upper_bound; [exact Hpn |].
    assert (2 ^ d <= 2 ^ (n + 53)) by (apply Z.pow_le_mono_r; unfold n; lia).
    rewrite Z.pow_add_r, two53 in H by lia. lia. }
  assert (Hm0 : 0 <= q / 2 ^ n) by (apply Z.div_pos; lia).
  assert (Hen : -1074 <= e' + n <= -46) by (unfold n; lia).
  assert (Htop : e' + n = -46 -> q / 2 ^ n < 7036874417766400).
  { intros E. replace n with (-46 - e') by lia.
    apply Z.div_lt_upper_bound; lia. }
  destruct (shr_fexp prec emax q e' l) as [mrs1 e1]. cbn [fst snd] in Hm1, He1.
  pose proof (round_nearest_even_bounds (shr_m mrs1) (loc_of_shr_record mrs1)) as Hr.
  set (mr := round_nearest_even (shr_m mrs1) (loc_of_shr_record mrs1)) in *.
  rewrite Hm1 in Hr. subst e1.
  destruct (shr_fexp_carry mr (e' + n) ltac:(lia) ltac:(lia))
    as [[Hm2 [He2 Hlt2]] | [Hm2 [He2 Heq]]];
    destruct (shr_fexp prec emax mr (e' + n) loc_Exact) as [mrs2 e2];
    cbn [fst snd] in Hm2, He2; rewrite Hm2; subst e2.
  - destruct mr as [|p|p]; try reflexivity; try lia.
    replace (e' + n <=? emax - prec) with true
      by (symmetry; apply Z.leb_le; unfold emax, prec; lia).
    unfold Binary64.hundred, SFleb, SFcompare.
    destruct (Z.compare_spec (e' + n) (-46)) as [E|E|E]; try reflexivity; try lia.
    specialize (Htop E).
    destruct (Pos.compare_cont Eq p 7036874417766400) eqn:Ec; try reflexivity.
    assert (Hgt' : (7036874417766400 < p)%positive) by (apply Pos.gt_lt; exact Ec).
    apply Pos2Z.pos_lt_pos in Hgt'. clear - Hgt' Htop Hr. lia.
  - assert (e' + n <> -46) by (intros E; specialize (Htop E); lia).
    replace (e' + n + 1 <=? emax - prec) with true
      by (symmetry; apply Z.leb_le; unfold emax, prec; lia).
    unfold Binary64.hundred, SFleb, SFcompare.
    destruct (Z.compare_spec (e' + n + 1) (-46)) as [E|E|E]; try reflexivity; lia.
Qed.

Lemma SF64mul_c100_range x :
  valid_binary x = true ->
  SFleb Binary64.zero x = true -> SFleb x Binary64.one = true ->
  SFleb Binary64.zero (SF64mul x Binary64.hundred) = true /\
  SFleb (SF64mul x Binary64.hundred) Binary64.hundred = true.
Proof.
  intros Hv H0 H1.
  destruct x as [s|s| |s m e]; try discriminate.
  - destruct s; split; reflexivity.
  - destruct s; discriminate.
  - destruct s; [discriminate |].
    assert (Hle : e < -52 \/ (e = -52 /\ Z.pos m <= 4503599627370496)).
    { unfold SFleb, SFcompare, Binary64.one in H1.
      destruct (Z.compare_spec e (-52)) as [E|E|E]; try discriminate; [right | left; lia].
      split; [exact E |].
      destruct (Pos.compare_cont Eq m 4503599627370496) eqn:Ec; try discriminate.
      - apply Pos.compare_eq in Ec. subst. lia.
      - assert (Hlt : (m < 4503599627370496)%positive) by exact Ec.
        apply Pos2Z.pos_lt_pos in Hlt. clear - Hlt. lia. }
    destruct (bounded_inv m e Hv) as [_ [_ Hm]].
    destruct (Z.eq_dec (Z.pos m) 4503599627370496) as [Em | Em];
      [destruct (Z.eq_dec e (-52)) as [Ee | Ee] |].
    + injection Em as ->. subst e. split; vm_compute; reflexivity.
    + unfold SF64mul, SFmul, Binary64.hundred. cbn [xorb]. split.
      * apply has_sign_false_nonneg, binary_round_aux_sign. lia.
      * apply binary_round_aux_le_hundred; [lia | lia |].
        rewrite Pos2Z.inj_mul.
        assert (2 ^ 53 <= 2 ^ (-46 - (e + -46))) by (apply Z.pow_le_mono_r; lia).
        rewrite two53 in H. nia.
    + unfold SF64mul, SFmul, Binary64.hundred. cbn [xorb]. split.
      * apply has_sign_false_nonneg, binary_round_aux_sign. lia.
      * apply binary_round_aux_le_hundred; [lia | lia |].
        rewrite Pos2Z.inj_mul.
        destruct Hle as [Hlt | [-> Hlt]].
        -- assert (2 ^ 53 <= 2 ^ (-46 - (e + -46))) by (apply Z.pow_le_mono_r; lia).
           rewrite two53 in H. nia.
        -- change (2 ^ (-46 - (-52 + -46))) with 4503599627370496. nia.
Qed.

End Binary64Bounds.

(** A comparison that holds has numbers on both sides. *)
Lemma leb_numbers (a b : number) :
  PrimFloat.leb a b = true -> isNaN a = false /\ isNaN b = false.
Proof.
  unfold isNaN. rewrite FloatAxioms.leb_spec, !is_nan_SF.
  destruct (Prim2SF a), (Prim2SF b); try discriminate; split; discriminate.
Qed.

Lemma isNaN_strict_eq (y : number) : isNaN y = false -> strict_eq y y = true.
Proof.
  unfold isNaN, PrimFloat.is_nan, strict_eq. apply negb_false_iff.
Qed.

(** [x / 100] is at least 1 from 100 on. *)
Lemma div100_ge_one (x : number) :
  PrimFloat.leb 100%float x = true -> PrimFloat.leb 1%float (x / 100)%float = true.
Proof.
  rewrite !FloatAxioms.leb_spec, FloatAxioms.div_spec.
  change (Prim2SF 100%float) with Binary64.hundred.
  change (Prim2SF 1%float) with Binary64.one.
  apply SF64div_c100_ge_one, Prim2SF_valid.
Qed.

(** [x / 100] is at most 0 up to 0. *)
Lemma div100_nonpos (x : number) :
  PrimFloat.leb x 0%float = true -> PrimFloat.leb (x / 100)%float 0%float = true.
Proof.
  rewrite !FloatAxioms.leb_spec, FloatAxioms.div_spec.
  change (Prim2SF 100%float) with Binary64.hundred.
  change (Prim2SF 0%float) with Binary64.zero.
  apply SF64div_c100_nonpos.
Qed.

(** [o * 100] maps [[0, 1]] into [[0, 100]]. *)
Lemma mul100_range (o : number) :
  in_unit_interval o = true ->
  PrimFloat.leb 0%float (o * 100)%float = true /\
  PrimFloat.leb (o * 100)%float 100%float = true.
Proof.
  unfold in_unit_interval. rewrite andb_true_iff.
  rewrite !FloatAxioms.leb_spec, FloatAxioms.mul_spec.
  change (Prim2SF 100%float) with Binary64.hundred.
  change (Prim2SF 0%float) with Binary64.zero.
  change (Prim2SF 1%float) with Binary64.one.
  intros [H0 H1]. apply SF64mul_c100_range; [apply Prim2SF_valid | assumption ..].
Qed.

(** lodash's [clamp] to [[0, 1]]: the identity inside, 1 above, zero
    below. *)
Lemma clamp_inside (y : number) :
  in_unit_interval y = true -> Lodash.clamp y 0%float 1%float = y.
Proof.
  unfold in_unit_interval. rewrite andb_true_iff. intros [H0 H1].
  destruct (leb_numbers _ _ H0) as [_ Hy].
  unfold Lodash.clamp, Lodash.baseClamp, geb.
  change (strict_eq 1%float 1%float) with true.
  change (strict_eq 0%float 0%float) with true.
  cbv iota. rewrite (isNaN_strict_eq y Hy), H1, H0. reflexivity.
Qed.

Lemma clamp_above (y : number) :
  PrimFloat.leb 1%float y = true -> Lodash.clamp y 0%float 1%float = 1%float.
Proof.
  intros H1. destruct (leb_numbers _ _ H1) as [_ Hy].
  unfold Lodash.clamp, Lodash.baseClamp, geb.
  change (strict_eq 1%float 1%float) with true.
  change (strict_eq 0%float 0%float) with true.
  cbv iota. rewrite (isNaN_strict_eq y Hy).
  destruct (PrimFloat.leb y 1%float) eqn:E; [| reflexivity].
  assert (Ey : y = 1%float).
  { apply Prim2SF_inj. change (Prim2SF 1%float) with Binary64.one.
    rewrite FloatAxioms.leb_spec in E, H1.
    change (Prim2SF 1%float) with Binary64.one in E, H1.
    now apply SFleb_antisym_one. }
  rewrite Ey. reflexivity.
Qed.

Lemma clamp_below (y : number) :
  PrimFloat.leb y 0%float = true ->
  strict_eq (Lodash.clamp y 0%float 1%float) 0%float = true.
Proof.
  intros H0. destruct (leb_numbers _ _ H0) as [Hy _].
  assert (H1 : PrimFloat.leb y 1%float = true).
  { rewrite FloatAxioms.leb_spec in *.
    change (Prim2SF 1%float) with Binary64.one.
    change (Prim2SF 0%float) with Binary64.zero in H0.
    now apply SFleb_zero_one. }
  unfold Lodash.clamp, Lodash.baseClamp, geb.
  change (strict_eq 1%float 1%float) with true.
  change (strict_eq 0%float 0%float) with true.
  cbv iota. rewrite (isNaN_strict_eq y Hy), H1.
  destruct (PrimFloat.leb 0%float y) eqn:E; [| reflexivity].
  unfold strict_eq. rewrite FloatAxioms.eqb_spec.
  rewrite FloatAxioms.leb_spec in E, H0.
  change (Prim2SF 0%float) with Binary64.zero in *.
  now apply SFleb_antisym_zero.
Qed.

(** ** The number input commits what the slider would *)

(** X1. With an entity selected and a local value between 0 and 100, a
    blur dispatches exactly [localOpacity / 100]: the clamp changes
    nothing, and the action is the one the slider dispatches for the same
    value when shift is held. *)
Theorem onBlur_commits_in_range
  (entityIdentifier : CanvasEntityIdentifier) (local : number) (w : World) :
  PrimFloat.leb sliderMin local = true ->
  PrimFloat.leb local sliderMax = true ->
  emitted (onBlur (Some entityIdentifier) local) w =
    [Dispatched
       (entityOpacityChanged entityIdentifier (mapSliderValueToOpacity local))] /\
  (shift w = true ->
   emitted (onBlur (Some entityIdentifier) local) w =
   emitted (onChangeSlider (Some entityIdentifier) local) w).
Proof.
  intros Hmin Hmax.
  destruct (leb_numbers _ _ Hmin) as [_ Hn].
  assert (E : emitted (onBlur (Some entityIdentifier) local) w =
              [Dispatched
                 (entityOpacityChanged entityIdentifier
                    (mapSliderValueToOpacity local))]).
  { rewrite onBlur_emitted. unfold Number. rewrite Hn.
    rewrite clamp_inside; [reflexivity |]. now apply div100_range. }
  split; [exact E |].
  intros Hs. rewrite E. symmetry. apply emitted_of_trace.
  unfold onChangeSlider. run. rewrite Hs. reflexivity.
Qed.

(** X2. With an entity selected, a blur on a local value of 100 or more,
    infinity included, dispatches the opacity 1. *)
Theorem onBlur_saturates_above
  (entityIdentifier : CanvasEntityIdentifier) (local : number) (w : World) :
  PrimFloat.leb sliderMax local = true ->
  emitted (onBlur (Some entityIdentifier) local) w =
    [Dispatched (entityOpacityChanged entityIdentifier 1%float)].
Proof.
  intros Hmax. destruct (leb_numbers _ _ Hmax) as [_ Hn].
  rewrite onBlur_emitted. unfold Number. rewrite Hn.
  rewrite clamp_above; [reflexivity |]. now apply div100_ge_one.
Qed.

(** X3. With an entity selected, a blur on a local value of 0 or less,
    minus infinity included, dispatches an opacity that is zero. *)
Theorem onBlur_saturates_below
  (entityIdentifier : CanvasEntityIdentifier) (local : number) (w : World) :
  PrimFloat.leb local sliderMin = true ->
  exists opacity,
    emitted (onBlur (Some entityIdentifier) local) w =
      [Dispatched (entityOpacityChanged entityIdentifier opacity)] /\
    strict_eq opacity 0%float = true.
Proof.
  intros Hmin. destruct (leb_numbers _ _ Hmin) as [Hn _].
  eexists. split.
  - rewrite onBlur_emitted. unfold Number. rewrite Hn. reflexivity.
  - apply clamp_below. now apply div100_nonpos.
Qed.

(** X4. After a blur has reset a local value that is not a number, the
    input holds 100 whatever the entity's opacity is; the next blur, with
    the callbacks rebuilt over that value, sets the entity's opacity to
    1. *)
Theorem onBlur_reset_then_commit
  (entityIdentifier : CanvasEntityIdentifier) (local : number) (w : World) :
  isNaN (Number local) = true ->
  let w1 := exec (onBlur (Some entityIdentifier) local) w in
  localOpacity w1 = 100%float /\
  store w1 = store w /\
  emitted (onBlur (Some entityIdentifier) (localOpacity w1)) w1 =
    [Dispatched (entityOpacityChanged entityIdentifier 1%float)].
Proof.
  intros Hn. cbv zeta.
  assert (E : exec (onBlur (Some entityIdentifier) local) w =
              {| store := store w; localOpacity := 100%float;
                 shift := shift w; trace := trace w |}).
  { unfold onBlur. rewrite Hn. reflexivity. }
  rewrite E. cbn [localOpacity store]. repeat split.
  rewrite onBlur_emitted. reflexivity.
Qed.

(** X5. Typing into the number input and pressing a key other than Enter
    never reach the store: the store and the trace stay as they were and
    the local value is the number typed.  Enter, with the callbacks
    rebuilt over that value and an entity selected, then dispatches
    [clamp(valueAsNumber / 100, 0, 1)] if what was typed is a number. *)
Theorem typing_then_enter
  (selected : option CanvasEntityIdentifier)
  (entityIdentifier : CanvasEntityIdentifier)
  (valueAsString key : string) (valueAsNumber : number) (w : World) :
  key <> "Enter" ->
  let w1 := exec (onChangeNumberInput valueAsString valueAsNumber) w in
  let w2 := exec (onKeyDown selected (localOpacity w1) key) w1 in
  store w2 = store w /\ trace w2 = trace w /\ localOpacity w2 = valueAsNumber /\
  (isNaN valueAsNumber = false ->
   emitted (onKeyDown (Some entityIdentifier) (localOpacity w2) "Enter") w2 =
     [Dispatched
        (entityOpacityChanged entityIdentifier
           (Lodash.clamp (valueAsNumber / 100)%float 0%float 1%float))]).
Proof.
  intros Hkey. cbv zeta.
  assert (E : forall local, onKeyDown selected local key = ret tt).
  { intros local. unfold onKeyDown.
    destruct (String.eqb_spec key "Enter"); [contradiction | reflexivity]. }
  rewrite E. unfold exec at 1 3 5 7 9. cbn [ret snd].
  repeat split.
  intros Hn. rewrite onKeyDown_Enter, onBlur_emitted.
  cbn [onChangeNumberInput exec setLocalOpacity snd localOpacity].
  unfold Number. rewrite Hn. reflexivity.
Qed.

(** ** The local value follows the store *)

(** X6. The local value computed from the store's opacity lies within the
    slider's range whenever that opacity lies in [[0, 1]], and is 100 when
    there is no opacity to show. *)
Theorem localOpacityOf_in_slider_range (opacity : option number) :
  match opacity with
  | Some o => in_unit_interval o = true
  | None => True
  end ->
  PrimFloat.leb sliderMin (localOpacityOf opacity) = true /\
  PrimFloat.leb (localOpacityOf opacity) sliderMax = true /\
  localOpacityOf None = 100%float.
Proof.
  destruct opacity as [o|]; intros H.
  - destruct (mul100_range o H) as [H0 H100]. repeat split; assumption.
  - repeat split.
Qed.

Lemma wholeNumber_percent_round_trip_upto (n : nat) :
  forallb
    (fun k =>
       PrimFloat.Leibniz.eqb
         (Lodash.clamp
            (localOpacityOf (Some (mapSliderValueToOpacity (wholeNumber k))) / 100)%float
            0%float 1%float)
         (mapSliderValueToOpacity (wholeNumber k)) &&
       negb (isNaN (localOpacityOf (Some (mapSliderValueToOpacity (wholeNumber k))))))
    (seq 0 n) = true ->
  forall k, (k < n)%nat ->
    isNaN (localOpacityOf (Some (mapSliderValueToOpacity (wholeNumber k)))) = false /\
    Lodash.clamp
      (localOpacityOf (Some (mapSliderValueToOpacity (wholeNumber k))) / 100)%float
      0%float 1%float = mapSliderValueToOpacity (wholeNumber k).
Proof.
  intros H k Hk. rewrite forallb_forall in H.
  specialize (H k). rewrite in_seq in H. specialize (H ltac:(lia)).
  apply andb_true_iff in H. destruct H as [H1 H2].
  split; [now apply negb_true_iff |].
  now apply FloatAxioms.Leibniz.eqb_spec.
Qed.

(** X7. An opacity that is a whole percentage survives the trip through
    the number input: for [k] from 0 to 100, once the local value has
    followed the store's opacity [k / 100], a blur dispatches exactly
    [k / 100] again.  Finer opacities need not: 0.007 comes back
    changed. *)
Theorem whole_percent_round_trip
  (entityIdentifier : CanvasEntityIdentifier) (k : nat) (w : World) :
  (k <= 100)%nat ->
  let opacity := mapSliderValueToOpacity (wholeNumber k) in
  emitted (onBlur (Some entityIdentifier) (localOpacityOf (Some opacity))) w =
    [Dispatched (entityOpacityChanged entityIdentifier opacity)] /\
  emitted
    (onBlur (Some entityIdentifier)
       (localOpacityOf (Some 0x1.cac083126e979p-8%float))) w <>
    [Dispatched (entityOpacityChanged entityIdentifier 0x1.cac083126e979p-8%float)].
Proof.
  intros Hk. cbv zeta. split.
  - destruct (wholeNumber_percent_round_trip_upto 101 ltac:(vm_compute; reflexivity)
                k ltac:(lia)) as [Hn Hc].
    rewrite onBlur_emitted. unfold Number. rewrite Hn, Hc. reflexivity.
  - rewrite onBlur_emitted. intros H.
    apply (f_equal
             (fun es =>
                match opacities es with
                | o :: _ => PrimFloat.Leibniz.eqb o 0x1.cac083126e979p-8%float
                | [] => false
                end)) in H.
    vm_compute in H. discriminate.
Qed.

(** ** The option the combobox shows *)

Lemma selectedOption_found (logLevel : string) :
  In logLevel zLogLevel_options ->
  selectedOption logLevel = Some {| label := logLevel; value := logLevel |}.
Proof.
  unfold selectedOption, options.
  induction zLogLevel_options as [|a rest IH]; intros Hin; [destruct Hin |].
  cbn [map find value]. destruct (String.eqb_spec a logLevel) as [-> | Hne].
  - reflexivity.
  - apply IH. destruct Hin as [E | Hin]; [contradiction | exact Hin].
Qed.

Lemma selectedOption_missing (logLevel : string) :
  ~ In logLevel zLogLevel_options -> selectedOption logLevel = None.
Proof.
  unfold selectedOption, options.
  induction zLogLevel_options as [|a rest IH]; intros Hin; [reflexivity |].
  cbn [map find value]. destruct (String.eqb_spec a logLevel) as [-> | Hne].
  - exfalso. apply Hin. left. reflexivity.
  - apply IH. intros H. apply Hin. right. exact H.
Qed.

(** X8. The combobox shows the option of the store's log level exactly
    when that level is one of [zLogLevel.options], and nothing otherwise;
    every option carries its level as label and value, and each option is
    the one shown when the store holds its level. *)
Theorem selectedOption_shows_store_level (logLevel : string) :
  (In logLevel zLogLevel_options ->
   selectedOption logLevel = Some {| label := logLevel; value := logLevel |}) /\
  (~ In logLevel zLogLevel_options -> selectedOption logLevel = None) /\
  (forall o, In o options ->
     label o = value o /\ In (value o) zLogLevel_options /\
     selectedOption (value o) = Some o).
Proof.
  split; [apply selectedOption_found | split; [apply selectedOption_missing |]].
  intros o Ho. unfold options in Ho. apply in_map_iff in Ho.
  destruct Ho as [x [<- Hx]]. cbn [label value].
  repeat split; [exact Hx | now apply selectedOption_found].
Qed.

(** ** What no handler does *)

Lemma sanctioned_not_accepted (es : list Event) :
  forallb sanctioned es = true ->
  forallb (fun a => negb (predicate a)) (dispatches es) = true.
Proof.
  induction es as [|e es IH]; [reflexivity |].
  cbn [forallb]. rewrite andb_true_iff. intros [He Hes].
  destruct e as [a | r m].
  - change (dispatches (Dispatched a :: es)) with (a :: dispatches es).
    cbn [forallb]. rewrite (IH Hes), andb_true_r.
    destruct a; try reflexivity; discriminate.
  - exact (IH Hes).
Qed.

(** X9. Nothing that the four files dispatch is accepted by the
    listener's predicate: a handler never enqueues a batch behind the
    user's back, and the listener's own request does not wake it again. *)
Theorem no_dispatch_wakes_listener (s : Stimulus) (w : World) :
  forallb (fun a => negb (predicate a)) (dispatches (emitted (handle s) w)) = true.
Proof.
  destruct (through_store_handle s w) as [es [Ht [_ Hf]]].
  rewrite (emitted_of_trace _ _ _ Ht).
  now apply sanctioned_not_accepted.
Qed.

(** A handler is brief when it emits at most two events, at most one of
    them a dispatch. *)
Lemma brief_none {A : Type} (m : M A) (w : World) :
  trace (exec m w) = trace w ->
  (List.length (dispatches (emitted m w)) <= 1)%nat /\
  (List.length (emitted m w) <= 2)%nat.
Proof.
  intros H. rewrite (emitted_of_trace m w []) by (now rewrite app_nil_r).
  simpl. lia.
Qed.

Lemma brief_one {A : Type} (m : M A) (w : World) (e : Event) :
  trace (exec m w) = trace w ++ [e] ->
  (List.length (dispatches (emitted m w)) <= 1)%nat /\
  (List.length (emitted m w) <= 2)%nat.
Proof.
  intros H. rewrite (emitted_of_trace m w [e] H).
  destruct e; simpl; lia.
Qed.

Lemma brief_onBlur (selected : option CanvasEntityIdentifier) (local : number)
  (w : World) :
  (List.length (dispatches (emitted (onBlur selected local) w)) <= 1)%nat /\
  (List.length (emitted (onBlur selected local) w) <= 2)%nat.
Proof.
  unfold onBlur. destruct selected; [destruct (isNaN (Number local)) |].
  - now apply brief_none.
  - now eapply brief_one.
  - now apply brief_none.
Qed.

(** X10. Whatever reaches one of the four files, the handler dispatches
    at most one action, and emits at most two events in all (the
    listener's request and the reset of its handle). *)
Theorem handlers_dispatch_at_most_once (s : Stimulus) (w : World) :
  (List.length (dispatches (emitted (handle s) w)) <= 1)%nat /\
  (List.length (emitted (handle s) w) <= 2)%nat.
Proof.
  destruct s as [v | selected local opacity | selected local | str n
                | selected local key | opacity | a i b | action]; cbn [handle].
  - unfold onChange. destruct (negb _); [now apply brief_none |].
    destruct v; [now eapply brief_one | now apply brief_none].
  - unfold onChangeSlider. destruct selected;
      [now eapply brief_one | now apply brief_none].
  - apply brief_onBlur.
  - now apply brief_none.
  - unfold onKeyDown. destruct (String.eqb key "Enter");
      [apply brief_onBlur | now apply brief_none].
  - now apply brief_none.
  - destruct b; now eapply brief_one.
  - unfold listener. destruct (predicate action); [| now apply brief_none].
    destruct (enqueueRequested_match action) as [p|]; [| now apply brief_none].
    rewrite (emitted_of_trace _ _ _ (effect_trace p w)). simpl. lia.
Qed.

(** ** The opacity that leaves the component *)

(** X12. Whatever the local value, the selection and the key, a blur or a
    keydown on the number input dispatches no opacity outside [[0, 1]]:
    a value that is not a number is dropped, every other one is
    clamped. *)
Theorem number_input_opacity_in_unit_interval
  (selected : option CanvasEntityIdentifier) (local : number) (key : string)
  (w : World) :
  forallb in_unit_interval (opacities (emitted (onBlur selected local) w)) = true /\
  forallb in_unit_interval
    (opacities (emitted (onKeyDown selected local key) w)) = true.
Proof.
  split; [apply onBlur_opacity_in_unit_interval |].
  unfold onKeyDown. destruct (String.eqb key "Enter").
  - apply onBlur_opacity_in_unit_interval.
  - rewrite emitted_ret. reflexivity.
Qed.

Section SnapWithinRange.

Hypothesis snapToNearest_spec :
  forall value candidateValues threshold,
    snapToNearest value candidateValues threshold = value \/
    (In (snapToNearest value candidateValues threshold) candidateValues /\
     PrimFloat.leb
       (PrimFloat.abs (value - snapToNearest value candidateValues threshold)%float)
       threshold = true).

(** X13. With an entity selected and a slider value between the slider's
    [min] and [max], the slider dispatches exactly one opacity, which lies
    in [[0, 1]] and is either [value / 100] or, when shift is not held,
    one of the snapped marks 0.25, 0.5 and 0.75; it is never snapped to 0
    or 1. *)
Theorem slider_opacity_within_range
  (entityIdentifier : CanvasEntityIdentifier) (opacity : number) (w : World) :
  PrimFloat.leb sliderMin opacity = true ->
  PrimFloat.leb opacity sliderMax = true ->
  exists mapped,
    emitted (onChangeSlider (Some entityIdentifier) opacity) w =
      [Dispatched (entityOpacityChanged entityIdentifier mapped)] /\
    in_unit_interval mapped = true /\
    (mapped = mapSliderValueToOpacity opacity \/
     (shift w = false /\ In mapped [0.25; 0.5; 0.75]%float)).
Proof.
  intros Hmin Hmax. eexists. split; [apply onChangeSlider_emitted |].
  unfold mapSliderValueToOpacity. destruct (shift w); cbn [negb].
  - split; [now apply div100_range | left; reflexivity].
  - rewrite snapCandidates_eq.
    destruct (snapToNearest_spec opacity [25; 50; 75]%float 2%float)
      as [-> | [Hin _]].
    + split; [now apply div100_range | left; reflexivity].
    + destruct Hin as [<- | [<- | [<- | []]]];
        (split; [reflexivity | right; split; [reflexivity |]]);
        cbn [In]; vm_compute; tauto.
Qed.

End SnapWithinRange.

End Frontend.


(** * A concrete front-end

    The node editor's state is a list of node names, a graph the list of
    its nodes and a workflow their number; adapters are named by their
    model.  [isLogLevel] is membership in the six log levels, the reducer
    records the log level and lets every other action pass, and
    [snapToNearest] is [nearestWithin]. *)

Arguments Build_World {NodesState}.
Arguments Build_RootState {NodesState}.
Arguments store {NodesState Graph Workflow ControlAdapter IPAdapter}.
Arguments localOpacity {NodesState Graph Workflow ControlAdapter IPAdapter}.
Arguments trace {NodesState Graph Workflow ControlAdapter IPAdapter}.
Arguments exec {NodesState Graph Workflow ControlAdapter IPAdapter A}.
Arguments emitted {NodesState Graph Workflow ControlAdapter IPAdapter A}.
Arguments dispatches {Graph Workflow ControlAdapter IPAdapter}.
Arguments calls {Graph Workflow ControlAdapter IPAdapter}.
Arguments onChange {NodesState Graph Workflow ControlAdapter IPAdapter}.
Arguments onBlur {NodesState Graph Workflow ControlAdapter IPAdapter}.
Arguments onChangeSlider {NodesState Graph Workflow ControlAdapter IPAdapter}.
Arguments listener {NodesState Graph Workflow ControlAdapter IPAdapter}.
Arguments predicate {Graph Workflow ControlAdapter IPAdapter}.
Arguments Dispatched {Graph Workflow ControlAdapter IPAdapter}.
Arguments RequestCall {Graph Workflow ControlAdapter IPAdapter}.
Arguments logLevelChanged {Graph Workflow ControlAdapter IPAdapter}.
Arguments entityOpacityChanged {Graph Workflow ControlAdapter IPAdapter}.
Arguments enqueueRequested {Graph Workflow ControlAdapter IPAdapter}.
Arguments enqueueBatch_initiate {Graph Workflow ControlAdapter IPAdapter}.
Arguments graph {Graph Workflow}.
Arguments workflow {Graph Workflow}.
Arguments runs {Graph Workflow}.
Arguments batch {Graph Workflow}.
Arguments prepend {Graph Workflow}.
Arguments nodes {NodesState}.
Arguments generation {NodesState}.
Arguments system {NodesState}.
Arguments canvasV2 {NodesState}.

Module Sample.

Definition NodesState : Type := list string.
Definition Graph : Type := list string.
Definition Workflow : Type := nat.
Definition ControlAdapter : Type := string.
Definition IPAdapter : Type := string.

Definition buildNodesGraph (n : NodesState) : Graph := n.
Definition buildWorkflow (n : NodesState) : Workflow := List.length n.

Definition zLogLevel_options : list string :=
  ["trace"; "debug"; "info"; "warn"; "error"; "fatal"].

Definition isLogLevel (v : option string) : bool :=
  match v with
  | Some s => existsb (String.eqb s) zLogLevel_options
  | None => false
  end.

Definition rootReducer (s : RootState NodesState)
  (a : Action Graph Workflow ControlAdapter IPAdapter) : RootState NodesState :=
  match a with
  | logLevelChanged level =>
      {| nodes := nodes s;
         generation := generation s;
         canvasV2 := canvasV2 s;
         system := {| logLevel := level; logIsEnabled := logIsEnabled (system s) |} |}
  | _ => s
  end.

Definition state0 : RootState NodesState :=
  {| nodes := ["noise"; "denoise"];
     generation := {| iterations := 3%float |};
     canvasV2 := {| selectedEntityIdentifier := None |};
     system := {| logLevel := "info"; logIsEnabled := true |} |}.

(** A world in which the number input holds something that is not a
    number, and one in which it holds 100. *)
Definition world (local : number) : World NodesState Graph Workflow ControlAdapter IPAdapter :=
  {| store := state0; localOpacity := local; shift := false; trace := [] |}.

Definition nodesTab : EnqueueRequested.payload :=
  {| EnqueueRequested.tabName := "nodes"; EnqueueRequested.prepend := true |}.

Definition layer : CanvasEntityIdentifier :=
  {| id := "layer-1"; type := "raster_layer" |}.

Definition debugOption : ComboboxOption := {| label := "debug"; value := "debug" |}.

End Sample.

Lemma nearestWithin_fold (value threshold : number) (candidateValues : list number) :
  forall acc : number * number,
    let f := fun (acc : number * number) (candidate : number) =>
               let diff := PrimFloat.abs (value - candidate)%float in
               if PrimFloat.ltb diff (snd acc) && PrimFloat.leb diff threshold
               then (candidate, diff)
               else acc in
    let r := fst (fold_left f candidateValues acc) in
    r = fst acc \/
    (In r candidateValues /\ PrimFloat.leb (PrimFloat.abs (value - r)%float) threshold = true).
Proof.
  induction candidateValues as [|c cs IH]; intros acc; cbn zeta.
  - left. reflexivity.
  - cbn [fold_left].
    destruct (IH (if PrimFloat.ltb (PrimFloat.abs (value - c)%float) (snd acc)
                     && PrimFloat.leb (PrimFloat.abs (value - c)%float) threshold
                  then (c, PrimFloat.abs (value - c)%float) else acc))
      as [E | [Hin Hnear]].
    + destruct (PrimFloat.ltb (PrimFloat.abs (value - c)%float) (snd acc)
                && PrimFloat.leb (PrimFloat.abs (value - c)%float) threshold) eqn:Ec.
      * right. cbn [fst] in E. apply andb_true_iff in Ec. destruct Ec as [_ Ec].
        rewrite E. split; [left; reflexivity | exact Ec].
      * left. exact E.
    + right. split; [right; exact Hin | exact Hnear].
Qed.

Lemma nearestWithin_spec (value : number) (candidateValues : list number)
  (threshold : number) :
  nearestWithin value candidateValues threshold = value \/
  (In (nearestWithin value candidateValues threshold) candidateValues /\
   PrimFloat.leb
     (PrimFloat.abs (value - nearestWithin value candidateValues threshold)%float)
     threshold = true).
Proof.
  exact (nearestWithin_fold value threshold candidateValues
           (value, 0x1.fffffffffffffp+1023%float)).
Qed.

(** * The theorems at work on the concrete front-end *)

(** An [enqueueRequested] action of the nodes tab, seen in [world 100]. *)
Lemma listener_enqueues_serialized_state_witness :
  EnqueueRequested.tabName Sample.nodesTab = "nodes" /\
  exists (batchConfig : BatchConfig Sample.Graph Sample.Workflow)
         (after : list (Event Sample.Graph Sample.Workflow
                          Sample.ControlAdapter Sample.IPAdapter)),
    emitted
      (listener Sample.buildNodesGraph Sample.buildWorkflow Sample.rootReducer
         (enqueueRequested Sample.nodesTab))
      (Sample.world 100%float) =
      Dispatched (enqueueBatch_initiate batchConfig "enqueueBatch") :: after /\
    graph (batch batchConfig) =
      Sample.buildNodesGraph (nodes (store (Sample.world 100%float))) /\
    workflow (batch batchConfig) =
      Sample.buildWorkflow (nodes (store (Sample.world 100%float))) /\
    runs (batch batchConfig) =
      iterations (generation (store (Sample.world 100%float))) /\
    prepend batchConfig = EnqueueRequested.prepend Sample.nodesTab.
Proof.
  split; [reflexivity |].
  apply (listener_enqueues_serialized_state
           Sample.NodesState Sample.Graph Sample.Workflow
           Sample.ControlAdapter Sample.IPAdapter
           Sample.buildNodesGraph Sample.buildWorkflow Sample.rootReducer
           Sample.nodesTab (Sample.world 100%float)).
  reflexivity.
Defined.

(** The same action: one request, one reset of its handle. *)
Lemma listener_single_request_witness :
  predicate (@enqueueRequested Sample.Graph Sample.Workflow
               Sample.ControlAdapter Sample.IPAdapter Sample.nodesTab) = true /\
  exists batchConfig : BatchConfig Sample.Graph Sample.Workflow,
    dispatches
      (emitted
         (listener Sample.buildNodesGraph Sample.buildWorkflow Sample.rootReducer
            (enqueueRequested Sample.nodesTab))
         (Sample.world 100%float)) =
      [enqueueBatch_initiate batchConfig "enqueueBatch"] /\
    calls
      (emitted
         (listener Sample.buildNodesGraph Sample.buildWorkflow Sample.rootReducer
            (enqueueRequested Sample.nodesTab))
         (Sample.world 100%float)) =
      [(List.length (trace (Sample.world 100%float)), reset)] /\
    emitted
      (listener Sample.buildNodesGraph Sample.buildWorkflow Sample.rootReducer
         (enqueueRequested Sample.nodesTab))
      (Sample.world 100%float) =
      [Dispatched (enqueueBatch_initiate batchConfig "enqueueBatch");
       RequestCall (List.length (trace (Sample.world 100%float))) reset].
Proof.
  split; [reflexivity |].
  apply (listener_single_request
           Sample.NodesState Sample.Graph Sample.Workflow
           Sample.ControlAdapter Sample.IPAdapter
           Sample.buildNodesGraph Sample.buildWorkflow Sample.rootReducer
           (enqueueRequested Sample.nodesTab) (Sample.world 100%float)).
  reflexivity.
Defined.

(** Choosing "debug" in the combobox dispatches [logLevelChanged("debug")],
    with [isLogLevel] the membership test of the six levels. *)
Lemma onChange_dispatches_iff_log_level_witness :
  Sample.isLogLevel None = false /\
  exists o, Some Sample.debugOption = Some o /\
    emitted
      (@onChange Sample.NodesState Sample.Graph Sample.Workflow
         Sample.ControlAdapter Sample.IPAdapter
         Sample.isLogLevel Sample.rootReducer (Some Sample.debugOption))
      (Sample.world 100%float) =
    [Dispatched (logLevelChanged (value o))].
Proof.
  split; [reflexivity |].
  apply (onChange_dispatches_iff_log_level
           Sample.NodesState Sample.Graph Sample.Workflow
           Sample.ControlAdapter Sample.IPAdapter
           Sample.isLogLevel Sample.rootReducer eq_refl
           (Some Sample.debugOption) (Sample.world 100%float)).
  reflexivity.
Defined.

(** The slider's default value, with [nearestWithin] for [snapToNearest]. *)
Lemma onChangeSlider_default_value_opacity_witness :
  (forall value candidateValues threshold,
     nearestWithin value candidateValues threshold = value \/
     (In (nearestWithin value candidateValues threshold) candidateValues /\
      PrimFloat.leb
        (PrimFloat.abs (value - nearestWithin value candidateValues threshold)%float)
        threshold = true)) /\
  emitted
    (@onChangeSlider Sample.NodesState Sample.Graph Sample.Workflow
       Sample.ControlAdapter Sample.IPAdapter
       nearestWithin Sample.rootReducer (Some Sample.layer) sliderDefaultValue)
    (Sample.world 100%float) =
  [Dispatched (entityOpacityChanged Sample.layer 100%float)].
Proof.
  split; [exact nearestWithin_spec |].
  apply (onChangeSlider_default_value_opacity
           Sample.NodesState Sample.Graph Sample.Workflow
           Sample.ControlAdapter Sample.IPAdapter
           nearestWithin Sample.rootReducer nearestWithin_spec
           Sample.layer (Sample.world 100%float)).
Defined.

(** C3 as the spec words it fails when nothing is selected: the number
    input holds NaN, the handler returns at its first guard, and the local
    value is still NaN, not 100. *)
Lemma onBlur_unselected_keeps_nan :
  isNaN (Number nan) = true /\
  exec
    (@onBlur Sample.NodesState Sample.Graph Sample.Workflow
       Sample.ControlAdapter Sample.IPAdapter Sample.rootReducer None nan)
    (Sample.world nan) = Sample.world nan /\
  localOpacity
    (exec
       (@onBlur Sample.NodesState Sample.Graph Sample.Workflow
          Sample.ControlAdapter Sample.IPAdapter Sample.rootReducer None nan)
       (Sample.world nan)) <> 100%float.
Proof.
  split; [reflexivity | split; [reflexivity |]].
  intros H. apply (f_equal PrimFloat.is_nan) in H. vm_compute in H. discriminate.
Qed.

(** * Sample runs *)

(** 26 on the slider snaps to the mark at 25; with shift held it does not. *)
Example slider_snaps_to_mark :
  emitted
    (@onChangeSlider Sample.NodesState Sample.Graph Sample.Workflow
       Sample.ControlAdapter Sample.IPAdapter
       nearestWithin Sample.rootReducer (Some Sample.layer) 26%float)
    (Sample.world 100%float) =
  [Dispatched (entityOpacityChanged Sample.layer 0.25%float)].
Proof. vm_compute. reflexivity. Qed.

Example slider_keeps_value_between_marks :
  emitted
    (@onChangeSlider Sample.NodesState Sample.Graph Sample.Workflow
       Sample.ControlAdapter Sample.IPAdapter
       nearestWithin Sample.rootReducer (Some Sample.layer) 32%float)
    (Sample.world 100%float) =
  [Dispatched (entityOpacityChanged Sample.layer (32 / 100)%float)].
Proof. vm_compute. reflexivity. Qed.

(** 150 typed into the number input is clamped to an opacity of 1. *)
Example blur_clamps_above :
  emitted
    (@onBlur Sample.NodesState Sample.Graph Sample.Workflow
       Sample.ControlAdapter Sample.IPAdapter
       Sample.rootReducer (Some Sample.layer) 150%float)
    (Sample.world 150%float) =
  [Dispatched (entityOpacityChanged Sample.layer 1%float)].
Proof. vm_compute. reflexivity. Qed.

(** A local value that is not a number is reset to 100 when a layer is
    selected. *)
Example blur_resets_nan :
  localOpacity
    (exec
       (@onBlur Sample.NodesState Sample.Graph Sample.Workflow
          Sample.ControlAdapter Sample.IPAdapter
          Sample.rootReducer (Some Sample.layer) nan)
       (Sample.world nan)) = 100%float.
Proof. vm_compute. reflexivity. Qed.

(** The reducer of the concrete front-end records the chosen level. *)
Example log_level_reaches_store :
  logLevel
    (system
       (store
          (exec
             (@onChange Sample.NodesState Sample.Graph Sample.Workflow
                Sample.ControlAdapter Sample.IPAdapter
                Sample.isLogLevel Sample.rootReducer (Some Sample.debugOption))
             (Sample.world 100%float)))) = "debug".
Proof. vm_compute. reflexivity. Qed.

(** * The further theorems at work *)

Arguments onKeyDown {NodesState Graph Workflow ControlAdapter IPAdapter}.
Arguments onChangeNumberInput {NodesState Graph Workflow ControlAdapter IPAdapter}.

(** 40 in the number input, a layer selected. *)
Lemma onBlur_commits_in_range_witness :
  PrimFloat.leb sliderMin 40%float = true /\
  PrimFloat.leb 40%float sliderMax = true /\
  emitted
    (@onBlur Sample.NodesState Sample.Graph Sample.Workflow
       Sample.ControlAdapter Sample.IPAdapter
       Sample.rootReducer (Some Sample.layer) 40%float)
    (Sample.world 40%float) =
  [Dispatched (entityOpacityChanged Sample.layer (mapSliderValueToOpacity 40%float))].
Proof.
  split; [reflexivity | split; [reflexivity |]].
  exact (proj1 (onBlur_commits_in_range
                  Sample.NodesState Sample.Graph Sample.Workflow
                  Sample.ControlAdapter Sample.IPAdapter
                  nearestWithin Sample.rootReducer
                  Sample.layer 40%float (Sample.world 40%float)
                  eq_refl eq_refl)).
Defined.

(** Infinity in the number input. *)
Lemma onBlur_saturates_above_witness :
  PrimFloat.leb sliderMax infinity = true /\
  emitted
    (@onBlur Sample.NodesState Sample.Graph Sample.Workflow
       Sample.ControlAdapter Sample.IPAdapter
       Sample.rootReducer (Some Sample.layer) infinity)
    (Sample.world infinity) =
  [Dispatched (entityOpacityChanged Sample.layer 1%float)].
Proof.
  split; [reflexivity |].
  apply (onBlur_saturates_above
           Sample.NodesState Sample.Graph Sample.Workflow
           Sample.ControlAdapter Sample.IPAdapter Sample.rootReducer
           Sample.layer infinity (Sample.world infinity)).
  reflexivity.
Defined.

(** -5 in the number input. *)
Lemma onBlur_saturates_below_witness :
  PrimFloat.leb (-5)%float sliderMin = true /\
  exists opacity,
    emitted
      (@onBlur Sample.NodesState Sample.Graph Sample.Workflow
         Sample.ControlAdapter Sample.IPAdapter
         Sample.rootReducer (Some Sample.layer) (-5)%float)
      (Sample.world (-5)%float) =
    [Dispatched (entityOpacityChanged Sample.layer opacity)] /\
    strict_eq opacity 0%float = true.
Proof.
  split; [reflexivity |].
  apply (onBlur_saturates_below
           Sample.NodesState Sample.Graph Sample.Workflow
           Sample.ControlAdapter Sample.IPAdapter Sample.rootReducer
           Sample.layer (-5)%float (Sample.world (-5)%float)).
  reflexivity.
Defined.

(** NaN in the number input, blurred twice. *)
Lemma onBlur_reset_then_commit_witness :
  isNaN (Number nan) = true /\
  emitted
    (@onBlur Sample.NodesState Sample.Graph Sample.Workflow
       Sample.ControlAdapter Sample.IPAdapter
       Sample.rootReducer (Some Sample.layer)
       (localOpacity
          (exec (onBlur Sample.rootReducer (Some Sample.layer) nan)
             (Sample.world nan))))
    (exec (onBlur Sample.rootReducer (Some Sample.layer) nan) (Sample.world nan)) =
  [Dispatched (entityOpacityChanged Sample.layer 1%float)].
Proof.
  split; [reflexivity |].
  apply (onBlur_reset_then_commit
           Sample.NodesState Sample.Graph Sample.Workflow
           Sample.ControlAdapter Sample.IPAdapter Sample.rootReducer
           Sample.layer nan (Sample.world nan)).
  reflexivity.
Defined.

(** Typing 150, pressing Tab, then Enter. *)
Lemma typing_then_enter_witness :
  "Tab" <> "Enter" /\
  store
    (exec
       (@onKeyDown Sample.NodesState Sample.Graph Sample.Workflow
          Sample.ControlAdapter Sample.IPAdapter
          Sample.rootReducer (Some Sample.layer)
          (localOpacity
             (exec (onChangeNumberInput "150" 150%float) (Sample.world 40%float)))
          "Tab")
       (exec (onChangeNumberInput "150" 150%float) (Sample.world 40%float))) =
  store (Sample.world 40%float).
Proof.
  split; [discriminate |].
  apply (typing_then_enter
           Sample.NodesState Sample.Graph Sample.Workflow
           Sample.ControlAdapter Sample.IPAdapter Sample.rootReducer
           (Some Sample.layer) Sample.layer "150" "Tab" 150%float
           (Sample.world 40%float)).
  discriminate.
Defined.

(** A store opacity of one half. *)
Lemma localOpacityOf_in_slider_range_witness :
  in_unit_interval 0.5%float = true /\
  PrimFloat.leb sliderMin (localOpacityOf (Some 0.5%float)) = true /\
  PrimFloat.leb (localOpacityOf (Some 0.5%float)) sliderMax = true.
Proof.
  split; [reflexivity |].
  pose proof (localOpacityOf_in_slider_range (Some 0.5%float) eq_refl) as [H1 [H2 _]].
  split; assumption.
Defined.

(** 29 percent. *)
Lemma whole_percent_round_trip_witness :
  (29 <= 100)%nat /\
  emitted
    (@onBlur Sample.NodesState Sample.Graph Sample.Workflow
       Sample.ControlAdapter Sample.IPAdapter
       Sample.rootReducer (Some Sample.layer)
       (localOpacityOf (Some (mapSliderValueToOpacity (wholeNumber 29)))))
    (Sample.world 29%float) =
  [Dispatched
     (entityOpacityChanged Sample.layer (mapSliderValueToOpacity (wholeNumber 29)))].
Proof.
  split; [lia |].
  apply (whole_percent_round_trip
           Sample.NodesState Sample.Graph Sample.Workflow
           Sample.ControlAdapter Sample.IPAdapter Sample.rootReducer
           Sample.layer 29 (Sample.world 29%float)).
  lia.
Defined.

(** 29 on the slider does not come back as 29 in the local value, though
    the opacity dispatched from it is the same. *)
Example whole_percent_29_local_value :
  localOpacityOf (Some (mapSliderValueToOpacity (wholeNumber 29))) =
  0x1.cffffffffffffp+4%float.
Proof. vm_compute. reflexivity. Qed.

(** 26 on the slider, shift not held, [nearestWithin] for
    [snapToNearest]. *)
Lemma slider_opacity_within_range_witness :
  PrimFloat.leb sliderMin 26%float = true /\
  PrimFloat.leb 26%float sliderMax = true /\
  (forall value candidateValues threshold,
     nearestWithin value candidateValues threshold = value \/
     (In (nearestWithin value candidateValues threshold) candidateValues /\
      PrimFloat.leb
        (PrimFloat.abs (value - nearestWithin value candidateValues threshold)%float)
        threshold = true)) /\
  exists mapped,
    emitted
      (@onChangeSlider Sample.NodesState Sample.Graph Sample.Workflow
         Sample.ControlAdapter Sample.IPAdapter
         nearestWithin Sample.rootReducer (Some Sample.layer) 26%float)
      (Sample.world 26%float) =
      [Dispatched (entityOpacityChanged Sample.layer mapped)] /\
    in_unit_interval mapped = true.
Proof.
  split; [reflexivity | split; [reflexivity | split; [exact nearestWithin_spec |]]].
  destruct (slider_opacity_within_range
              Sample.NodesState Sample.Graph Sample.Workflow
              Sample.ControlAdapter Sample.IPAdapter
              nearestWithin Sample.rootReducer nearestWithin_spec
              Sample.layer 26%float (Sample.world 26%float) eq_refl eq_refl)
    as [mapped [E [Hin _]]].
  exists mapped. split; assumption.
Defined.

(** The reducer of the concrete front-end confines every action to the
    parts it may change. *)
Lemma Sample_rootReducer_confined :
  forall (s : RootState Sample.NodesState)
         (a : Action Sample.Graph Sample.Workflow Sample.ControlAdapter Sample.IPAdapter)
         (p : StorePart),
    may_change Sample.Graph Sample.Workflow Sample.ControlAdapter Sample.IPAdapter a p
      = false ->
    same_part Sample.NodesState p (Sample.rootReducer s a) s.
Proof.
  intros s a p. destruct a, p; simpl; intros H; try discriminate; reflexivity.
Qed.


(** The level itself does change. *)
Example log_level_is_within_reach :
  logLevel
    (system
       (store
          (exec
             (handle Sample.NodesState Sample.Graph Sample.Workflow
                Sample.ControlAdapter Sample.IPAdapter
                Sample.buildNodesGraph Sample.buildWorkflow Sample.isLogLevel
                nearestWithin Sample.rootReducer
                (LogLevelChange Sample.Graph Sample.Workflow Sample.ControlAdapter
                   Sample.IPAdapter (Some Sample.debugOption)))
             (Sample.world 100%float)))) = "debug" /\
  logLevel (system (store (Sample.world 100%float))) = "info".
Proof. vm_compute. split; reflexivity. Qed.
